(** * Sophos endpoint dashboard: acquisition, normalization, aggregation

    A shallow embedding of [src/lib/sophos-api.ts] and of the [fetchData]
    handler of [src/app/page.tsx].

    The TypeScript code receives its raw inventory as [any[]] from the Tauri
    bridge, so raw records are modelled as untyped JavaScript values and the
    operators the code applies to them ([||], [&&], [?.], [===],
    [Array.isArray]) are written out with their JavaScript meaning.  Calls
    through the bridge, console output and exceptions are kept in a small
    trace-and-exception monad. *)

From Stdlib Require Import QArith.
From stdpp Require Import gmap strings list.

Local Open Scope string_scope.
Local Open Scope list_scope.

(** ** JavaScript values *)

(** Values that cross the Tauri bridge are JSON values; [JUndefined] is what
    reading a missing property gives.  A JSON number is kept as the rational
    it denotes: the code only tests numbers for truthiness and with [===]. *)
#[warnings="-register-all"]
Inductive JsValue : Type :=
  | JUndefined
  | JNull
  | JBool (b : bool)
  | JNum (q : Q)
  | JStr (s : string)
  | JArr (l : list JsValue)
  | JObj (o : gmap string JsValue).

(** ToBoolean. *)
Definition truthy (v : JsValue) : bool :=
  match v with
  | JUndefined | JNull => false
  | JBool b => b
  | JNum q => negb (Qeq_bool q 0)
  | JStr s => negb (String.eqb s "")
  | JArr _ | JObj _ => true
  end.

(** [a || b] *)
Definition jsOr (a b : JsValue) : JsValue := if truthy a then a else b.

(** [a === b].  Arrays and objects compare by reference; the two operands
    the code compares always come from two different records of one
    deserialized payload, so two arrays or objects are never the same
    reference. *)
Definition strictEq (a b : JsValue) : bool :=
  match a, b with
  | JUndefined, JUndefined => true
  | JNull, JNull => true
  | JBool x, JBool y => Bool.eqb x y
  | JNum x, JNum y => Qeq_bool x y
  | JStr x, JStr y => String.eqb x y
  | _, _ => false
  end.

(** [Array.isArray(v)] *)
Definition isArray (v : JsValue) : bool :=
  match v with JArr _ => true | _ => false end.

(** The elements of an array value (nothing for any other value). *)
Definition elements (v : JsValue) : list JsValue :=
  match v with JArr l => l | _ => [] end.

Definition nullish (v : JsValue) : bool :=
  match v with JUndefined | JNull => true | _ => false end.

(** [v.k] for a [v] that is neither [null] nor [undefined].  The property
    names the code reads (id, hostname, os, name, version, endpoint_type,
    online, health, overall, group, last_seen and the six address fields)
    are not properties of strings, numbers, booleans or arrays, nor
    inherited from [Object.prototype]: only an object's own entry answers. *)
Definition field (v : JsValue) (k : string) : JsValue :=
  match v with
  | JObj o => default JUndefined (o !! k)
  | _ => JUndefined
  end.

(** [v?.k] *)
Definition optField (v : JsValue) (k : string) : JsValue :=
  if nullish v then JUndefined else field v k.

(** ** Canonical records ([interface SophosEndpoint]) *)

Module Os.
Record t : Type := mk { name : JsValue; version : JsValue }.
End Os.

Module Health.
Record t : Type := mk { overall : JsValue }.
End Health.

Module Group.
Record t : Type := mk { name : JsValue }.
End Group.

(** The interface types the fields as strings and a boolean; a record built
    from an [any] payload holds whatever the payload held, so the fields are
    JavaScript values.  [ipAddresses] is always an array. *)
Record SophosEndpoint : Type := mkEndpoint {
  id : JsValue;
  hostname : JsValue;
  os : Os.t;
  type : JsValue;
  online : JsValue;
  health : Health.t;
  group : Group.t;
  ipAddresses : list JsValue;
  lastSeen : JsValue
}.

(** ** Exceptions, events and the effect monad *)

(** Where the engine raises a [TypeError]. *)
Inductive TypeErrorSite : Type :=
  | ReadOfNullish (v : JsValue) (k : string)   (* v.k with v null/undefined *)
  | KeysOfNullish (v : JsValue)                (* Object.keys(v) *)
  | NotAnArray (v : JsValue)                   (* .length / [0] / .map on a payload that is no array *)
  | NotConvertible (v : JsValue).              (* `${v}` or acc[v] with v not convertible to a string *)

(** A thrown value: an [Error] created by the code, a [TypeError] raised by
    the engine, or the value a bridge call was rejected with. *)
Inductive Thrown : Type :=
  | ErrorObject (message : string)
  | TypeErrorAt (site : TypeErrorSite)
  | Rejection (v : JsValue).

(** [t instanceof Error] *)
Definition instanceofError (t : Thrown) : bool :=
  match t with
  | ErrorObject _ | TypeErrorAt _ => true
  | Rejection _ => false
  end.

Inductive Level : Type := LLog | LWarn | LError.

(** An argument of a console call; a template literal is kept as its
    pieces. *)
Inductive LogArg : Type :=
  | AStr (s : string)
  | AVal (v : JsValue)
  | ANum (n : Z)
  | AThrown (t : Thrown).

Inductive Event : Type :=
  | Invoke (cmd : string) (args : list (string * JsValue))
  | Console (lvl : Level) (args : list LogArg).

Inductive Outcome (A : Type) : Type :=
  | Returned (a : A)
  | Threw (t : Thrown).
Arguments Returned {A} a.
Arguments Threw {A} t.

(** A computation: the events it emitted, in order, and how it ended. *)
Record Js (A : Type) : Type := MkJs { trace : list Event; outcome : Outcome A }.
Arguments MkJs {A} trace outcome.
Arguments trace {A} j.
Arguments outcome {A} j.

#[global] Instance js_ret : MRet Js := fun A a => MkJs [] (Returned a).

#[global] Instance js_bind : MBind Js := fun A B f m =>
  match outcome m with
  | Returned a => MkJs (trace m ++ trace (f a)) (outcome (f a))
  | Threw t => MkJs (trace m) (Threw t)
  end.

Definition throw {A : Type} (t : Thrown) : Js A := MkJs [] (Threw t).

(** [try { m } catch (e) { h e }] *)
Definition tryCatch {A : Type} (m : Js A) (h : Thrown → Js A) : Js A :=
  match outcome m with
  | Returned a => m
  | Threw t => MkJs (trace m ++ trace (h t)) (outcome (h t))
  end.

Definition emit (e : Event) : Js unit := MkJs [e] (Returned tt).

Definition console (lvl : Level) (args : list LogArg) : Js unit :=
  emit (Console lvl args).

(** [arr.map(f)] for a callback that may throw: left to right, stopping at
    the first exception. *)
Fixpoint mapJs {A B : Type} (f : A → Js B) (l : list A) : Js (list B) :=
  match l with
  | [] => mret []
  | x :: l' => y ← f x; ys ← mapJs f l'; mret (y :: ys)
  end.

(** [arr.reduce(f, init)] for a callback that may log. *)
Fixpoint reduceJs {A B : Type} (f : B → A → Js B) (l : list A) (acc : B) : Js B :=
  match l with
  | [] => mret acc
  | x :: l' => acc' ← f acc x; reduceJs f l' acc'
  end.

(** ** The outside world *)

Inductive InvokeResult : Type :=
  | Resolved (v : JsValue)
  | Rejected (t : Thrown).

(** Everything one fetch cycle reads from outside: the build-time
    environment variable, the answers of the three Tauri commands, the text
    the engine puts in a [TypeError], and the clock. *)
Record Env : Type := mkEnv {
  NEXT_PUBLIC_USE_MOCK_DATA : option string;
  load_sophos_credentials : InvokeResult;
  get_sophos_access_token : InvokeResult;
  fetch_sophos_endpoints : JsValue → InvokeResult;
  typeErrorMessage : TypeErrorSite → string;
  now : Z
}.

(** [await invoke(cmd, args)] *)
Definition invoke (cmd : string) (args : list (string * JsValue))
    (answer : InvokeResult) : Js JsValue :=
  emit (Invoke cmd args);;
  match answer with
  | Resolved v => mret v
  | Rejected t => throw t
  end.

(** [error.message] of an [Error] instance. *)
Definition messageOf (env : Env) (t : Thrown) : string :=
  match t with
  | ErrorObject m => m
  | TypeErrorAt site => typeErrorMessage env site
  | Rejection _ => ""
  end.

(** ** [src/lib/sophos-api.ts] *)

(** [loadSophosCredentials]: never throws, a rejected call gives [null]. *)
Definition loadSophosCredentials (env : Env) : Js JsValue :=
  tryCatch
    (invoke "load_sophos_credentials" [] (load_sophos_credentials env))
    (λ error,
      console LError [AStr "Error loading Sophos credentials:"; AThrown error];;
      mret JNull).

(** [getSophosAccessToken]: never throws, a rejected call gives [null]. *)
Definition getSophosAccessToken (env : Env) : Js JsValue :=
  tryCatch
    (invoke "get_sophos_access_token" [] (get_sophos_access_token env))
    (λ error,
      console LError [AStr "Error getting Sophos access token:"; AThrown error];;
      mret JNull).

(** [v && Array.isArray(v) && v.length > 0] *)
Definition nonEmptyArray (v : JsValue) : bool :=
  truthy v && isArray v && (0 <? length (elements v))%nat.

(** [v && Array.isArray(v) ? v : []] *)
Definition arrayOrEmpty (v : JsValue) : list JsValue :=
  if truthy v && isArray v then elements v else [].

(** The address resolution of the [map] callback (lines 150-168). *)
Definition resolveIpAddresses (item : JsValue) : list JsValue :=
  if nonEmptyArray (field item "ipAddresses") then
    elements (field item "ipAddresses")
  else if nonEmptyArray (field item "ip_addresses") then
    elements (field item "ip_addresses")
  else
    let ipv4 := arrayOrEmpty (field item "ipv4Addresses") in
    let ipv6 := arrayOrEmpty (field item "ipv6Addresses") in
    let ipv4Snake := arrayOrEmpty (field item "ipv4_addresses") in
    let ipv6Snake := arrayOrEmpty (field item "ipv6_addresses") in
    ipv4 ++ ipv6 ++ ipv4Snake ++ ipv6Snake.

(** The record built by the [map] callback (lines 170-187), for an [item]
    whose properties can be read. *)
Definition canonical (item : JsValue) : SophosEndpoint :=
  {| id := field item "id";
     hostname := jsOr (field item "hostname") (JStr "Unknown");
     os := {| Os.name := jsOr (optField (field item "os") "name") (JStr "Unknown OS");
              Os.version := optField (field item "os") "version" |};
     type := jsOr (field item "endpoint_type") (JStr "computer");
     online := jsOr (field item "online") (JBool false);
     health := {| Health.overall :=
                    jsOr (optField (field item "health") "overall") (JStr "unknown") |};
     group := {| Group.name :=
                   jsOr (optField (field item "group") "name") (JStr "No Group") |};
     ipAddresses := resolveIpAddresses item;
     lastSeen := field item "last_seen" |}.

(** The [map] callback of [fetchSophosEndpoints] (lines 147-188), the
    normalization function.  Its first property read, [item.ipAddresses],
    raises a [TypeError] when the item is [null] or [undefined]. *)
Definition normalizeItem (item : JsValue) : Js SophosEndpoint :=
  if nullish item then throw (TypeErrorAt (ReadOfNullish item "ipAddresses"))
  else mret (canonical item).

(** The debugging block on the first raw endpoint (lines 100-144).  Its
    console output is left out of the trace; what is kept is that
    [Object.keys(firstItem)] raises a [TypeError] on [null]. *)
Definition debugFirstItem (rawEndpoints : list JsValue) : Js unit :=
  match rawEndpoints with
  | [] => mret tt
  | firstItem :: _ =>
      if nullish firstItem then throw (TypeErrorAt (KeysOfNullish firstItem))
      else mret tt
  end.

(** [fetchSophosEndpoints].  A payload that is not an array cannot get
    through [.length], [rawEndpoints[0]] and [.map]: the body ends in a
    [TypeError], whose site keeps the payload. *)
Definition fetchSophosEndpoints (env : Env) (accessToken : JsValue)
    : Js (list SophosEndpoint) :=
  tryCatch
    (console LLog [AStr "Fetching endpoints from Sophos API"];;
     rawEndpoints ← invoke "fetch_sophos_endpoints" [("accessToken", accessToken)]
                      (fetch_sophos_endpoints env accessToken);
     match rawEndpoints with
     | JArr items =>
         debugFirstItem items;;
         endpoints ← mapJs normalizeItem items;
         mret endpoints
     | _ => throw (TypeErrorAt (NotAnArray rawEndpoints))
     end)
    (λ error,
      console LError [AStr "Error fetching Sophos endpoints:"; AThrown error];;
      throw error).

Inductive Source : Type := api | mock.

(** The object [getSophosEndpointData] resolves to. *)
Record FetchResult : Type := mkResult {
  success : bool;
  data : list SophosEndpoint;
  source : Source;
  error : option string
}.

Definition mockEndpoint (i h osn : string) (osv : JsValue) (t : string) (onl : bool)
    (hl g ip seen : string) : SophosEndpoint :=
  {| id := JStr i; hostname := JStr h;
     os := {| Os.name := JStr osn; Os.version := osv |};
     type := JStr t; online := JBool onl;
     health := {| Health.overall := JStr hl |};
     group := {| Group.name := JStr g |};
     ipAddresses := [JStr ip]; lastSeen := JStr seen |}.

(** The mock data of [getSophosEndpointData] (lines 221-332). *)
Definition mockEndpoints : list SophosEndpoint :=
  [ mockEndpoint "1" "DESKTOP-ABC123" "Windows 11" (JStr "22H2") "computer" true
      "good" "IT Department" "192.168.1.100" "2024-01-15T10:30:00Z";
    mockEndpoint "2" "LAPTOP-XYZ789" "Windows 10" (JStr "21H2") "computer" false
      "warning" "Sales Team" "192.168.1.101" "2024-01-14T16:45:00Z";
    mockEndpoint "3" "MACBOOK-PRO-001" "macOS" (JStr "14.2") "computer" true
      "good" "Design Team" "192.168.1.102" "2024-01-15T11:00:00Z";
    mockEndpoint "4" "SERVER-PROD-01" "Windows Server 2022" JUndefined "server" true
      "critical" "Production Servers" "192.168.1.50" "2024-01-15T11:15:00Z";
    mockEndpoint "5" "UBUNTU-DEV-01" "Ubuntu" (JStr "22.04") "server" true
      "good" "Development" "192.168.1.51" "2024-01-15T11:20:00Z";
    mockEndpoint "6" "WORKSTATION-DESIGN" "Windows 11" (JStr "23H2") "computer" true
      "good" "Design Team" "192.168.1.103" "2024-01-15T11:25:00Z";
    mockEndpoint "7" "LAPTOP-SALES-01" "Windows 10" (JStr "22H2") "computer" false
      "warning" "Sales Team" "192.168.1.104" "2024-01-13T14:20:00Z";
    mockEndpoint "8" "SERVER-DB-01" "Windows Server 2019" JUndefined "server" true
      "good" "Production Servers" "192.168.1.52" "2024-01-15T11:30:00Z";
    mockEndpoint "9" "LAPTOP-HR-01" "Windows 11" (JStr "23H2") "computer" true
      "good" "HR Department" "192.168.1.105" "2024-01-15T11:35:00Z";
    mockEndpoint "10" "IPHONE-SALES-02" "iOS" (JStr "17.2") "mobile" true
      "good" "Sales Team" "192.168.1.106" "2024-01-15T11:40:00Z" ].

(** [process.env.NEXT_PUBLIC_USE_MOCK_DATA === 'true'] *)
Definition forceMockData (env : Env) : bool :=
  match NEXT_PUBLIC_USE_MOCK_DATA env with
  | Some s => String.eqb s "true"
  | None => false
  end.

(** [getSophosEndpointData] (lines 214-388). *)
Definition getSophosEndpointData (env : Env) : Js FetchResult :=
  if forceMockData env then
    console LLog [AStr "Using mock data (forced by USE_MOCK_DATA=true)"];;
    mret {| success := true; data := mockEndpoints; source := mock; error := None |}
  else
    tryCatch
      (console LLog [AStr "Attempting to fetch data from Sophos Central API..."];;
       credentials ← loadSophosCredentials env;
       if negb (truthy credentials) then
         console LLog [AStr "No Sophos API credentials found, using mock data"];;
         mret {| success := true; data := mockEndpoints; source := mock; error := None |}
       else
         accessToken ← getSophosAccessToken env;
         if negb (truthy accessToken) then
           throw (ErrorObject "Failed to obtain access token from Sophos Central")
         else
           console LLog [AStr "Successfully authenticated with Sophos Central"];;
           endpoints ← fetchSophosEndpoints env accessToken;
           console LLog [AStr "Successfully fetched "; ANum (Z.of_nat (length endpoints));
                         AStr " endpoints from Sophos Central"];;
           mret {| success := true; data := endpoints; source := api; error := None |})
      (λ err,
        console LError [AStr "Failed to fetch from Sophos API, falling back to mock data:";
                        AThrown err];;
        mret {| success := false; data := mockEndpoints; source := mock;
                error := Some (if instanceofError err then messageOf env err
                               else "Unknown error occurred while fetching from Sophos API") |}).

(** ** [src/app/page.tsx]: the [fetchData] handler *)

Local Open Scope Z_scope.

(** [interface DashboardStats], its six counters.  The three frequency
    tables ([osCounts], [typeCounts], [groupCounts]) feed none of them;
    their keys are the engine's string forms of the values counted, and the
    tables are kept only as far as building them can throw ([countBy]
    below). *)
Record DashboardStats : Type := mkStats {
  totalEndpoints : Z;
  onlineEndpoints : Z;
  offlineEndpoints : Z;
  healthyEndpoints : Z;
  warningEndpoints : Z;
  criticalEndpoints : Z
}.

(** The React state [fetchData] writes. *)
Record DashboardState : Type := mkState {
  st_endpoints : list SophosEndpoint;
  st_stats : option DashboardStats;
  st_loading : bool;
  st_error : option string;
  st_lastUpdated : option Z;
  st_dataSource : Source
}.

(** The state of the [useState] initialisers. *)
Definition initialState : DashboardState :=
  {| st_endpoints := []; st_stats := None; st_loading := true; st_error := None;
     st_lastUpdated := None; st_dataSource := mock |}.

(** ToString and ToPropertyKey succeed on the value.  A primitive always
    converts.  An object converts through [Object.prototype.toString]
    unless it has an own [toString] entry: coming from JSON that entry is
    not callable, and [valueOf] then gives no primitive either.  An array
    converts through [join], which converts each element that is not
    [null] or [undefined]. *)
Fixpoint convertible (v : JsValue) : bool :=
  match v with
  | JArr l => forallb convertible l
  | JObj o => match o !! "toString" with None => true | Some _ => false end
  | _ => true
  end.

(** The conversion a template literal or a computed property key makes; the
    string itself is the engine's and is not kept. *)
Definition toStringOf (v : JsValue) : Js unit :=
  if convertible v then mret tt else throw (TypeErrorAt (NotConvertible v)).

(** The [reduce] callback of lines 85-93.  The template literal of the
    warning converts the id, then the hostname, before [console.warn] is
    called. *)
Definition dedupStep (acc : list SophosEndpoint) (endpoint : SophosEndpoint)
    : Js (list SophosEndpoint) :=
  match find (λ e, strictEq (id e) (id endpoint)) acc with
  | None => mret (acc ++ [endpoint])
  | Some _ =>
      toStringOf (id endpoint);;
      toStringOf (hostname endpoint);;
      console LWarn [AStr "Duplicate endpoint found: "; AVal (id endpoint);
                     AStr " ("; AVal (hostname endpoint); AStr ")"];;
      mret acc
  end.

(** [uniqueEndpoints] (lines 85-93). *)
Definition uniqueEndpoints (resultData : list SophosEndpoint) : Js (list SophosEndpoint) :=
  reduceJs dedupStep resultData [].

Record HealthCounts : Type := mkHealthCounts { healthy : Z; warning : Z; critical : Z }.

(** The [reduce] callback of lines 114-120. *)
Definition healthStep (acc : HealthCounts) (endpoint : SophosEndpoint) : HealthCounts :=
  let h := Health.overall (health endpoint) in
  if strictEq h (JStr "good") then
    {| healthy := healthy acc + 1; warning := warning acc; critical := critical acc |}
  else if strictEq h (JStr "warning") then
    {| healthy := healthy acc; warning := warning acc + 1; critical := critical acc |}
  else if strictEq h (JStr "critical") then
    {| healthy := healthy acc; warning := warning acc; critical := critical acc + 1 |}
  else acc.

Definition healthCounts (loadedEndpoints : list SophosEndpoint) : HealthCounts :=
  fold_left healthStep loadedEndpoints {| healthy := 0; warning := 0; critical := 0 |}.

(** The statistics of lines 108-149, computed from [loadedEndpoints]. *)
Definition computeStats (loadedEndpoints : list SophosEndpoint) : DashboardStats :=
  let totalEndpoints := Z.of_nat (length loadedEndpoints) in
  let onlineEndpoints :=
    Z.of_nat (length (List.filter (λ e, truthy (online e)) loadedEndpoints)) in
  let offlineEndpoints := totalEndpoints - onlineEndpoints in
  let hc := healthCounts loadedEndpoints in
  {| totalEndpoints := totalEndpoints;
     onlineEndpoints := onlineEndpoints;
     offlineEndpoints := offlineEndpoints;
     healthyEndpoints := healthy hc;
     warningEndpoints := warning hc;
     criticalEndpoints := critical hc |}.

(** One of the three frequency-table reductions (lines 122-137):
    [acc[key] = (acc[key] || 0) + 1] for every endpoint, in order.  Using
    the value as a property key converts it to a string, which can throw;
    the table itself is not kept. *)
Definition countBy (key : SophosEndpoint → JsValue) (l : list SophosEndpoint) : Js unit :=
  reduceJs (λ _ endpoint, toStringOf (key endpoint)) l tt.

(** [result.error || 'Failed to load endpoint data'] *)
Definition errorOrDefault (e : option string) : string :=
  match e with
  | Some s => if String.eqb s "" then "Failed to load endpoint data" else s
  | None => "Failed to load endpoint data"
  end.

(** *** Handlers over the React state

    A handler runs on the current state and leaves the events it emitted,
    the state as its setters left it, and its outcome; a setter that ran
    before an exception keeps its effect. *)

Record UiRun (A : Type) : Type := MkUiRun {
  ui_trace : list Event;
  ui_state : DashboardState;
  ui_outcome : Outcome A
}.
Arguments MkUiRun {A} ui_trace ui_state ui_outcome.
Arguments ui_trace {A} u.
Arguments ui_state {A} u.
Arguments ui_outcome {A} u.

Record Ui (A : Type) : Type := MkUi { runUi : DashboardState → UiRun A }.
Arguments MkUi {A} runUi.
Arguments runUi {A} u st.

#[global] Instance ui_ret : MRet Ui := λ A a, MkUi (λ st, MkUiRun [] st (Returned a)).

(** The run [r] with the events [tr] before its own. *)
Definition prepend {A : Type} (tr : list Event) (r : UiRun A) : UiRun A :=
  MkUiRun (tr ++ ui_trace r) (ui_state r) (ui_outcome r).

#[global] Instance ui_bind : MBind Ui := λ A B f m,
  MkUi (λ st,
    let r := runUi m st in
    match ui_outcome r with
    | Returned a => prepend (ui_trace r) (runUi (f a) (ui_state r))
    | Threw t => MkUiRun (ui_trace r) (ui_state r) (Threw t)
    end).

(** A computation that does not touch the state. *)
Definition liftJs {A : Type} (m : Js A) : Ui A :=
  MkUi (λ st, MkUiRun (trace m) st (outcome m)).

(** The six [useState] setters. *)
Definition setEndpoints (l : list SophosEndpoint) : Ui unit :=
  MkUi (λ st, MkUiRun []
    {| st_endpoints := l; st_stats := st_stats st; st_loading := st_loading st;
       st_error := st_error st; st_lastUpdated := st_lastUpdated st;
       st_dataSource := st_dataSource st |} (Returned tt)).

Definition setStats (s : option DashboardStats) : Ui unit :=
  MkUi (λ st, MkUiRun []
    {| st_endpoints := st_endpoints st; st_stats := s; st_loading := st_loading st;
       st_error := st_error st; st_lastUpdated := st_lastUpdated st;
       st_dataSource := st_dataSource st |} (Returned tt)).

Definition setLoading (b : bool) : Ui unit :=
  MkUi (λ st, MkUiRun []
    {| st_endpoints := st_endpoints st; st_stats := st_stats st; st_loading := b;
       st_error := st_error st; st_lastUpdated := st_lastUpdated st;
       st_dataSource := st_dataSource st |} (Returned tt)).

Definition setError (e : option string) : Ui unit :=
  MkUi (λ st, MkUiRun []
    {| st_endpoints := st_endpoints st; st_stats := st_stats st;
       st_loading := st_loading st; st_error := e;
       st_lastUpdated := st_lastUpdated st;
       st_dataSource := st_dataSource st |} (Returned tt)).

Definition setLastUpdated (d : option Z) : Ui unit :=
  MkUi (λ st, MkUiRun []
    {| st_endpoints := st_endpoints st; st_stats := st_stats st;
       st_loading := st_loading st; st_error := st_error st;
       st_lastUpdated := d; st_dataSource := st_dataSource st |} (Returned tt)).

Definition setDataSource (s : Source) : Ui unit :=
  MkUi (λ st, MkUiRun []
    {| st_endpoints := st_endpoints st; st_stats := st_stats st;
       st_loading := st_loading st; st_error := st_error st;
       st_lastUpdated := st_lastUpdated st; st_dataSource := s |} (Returned tt)).

(** [try { body } catch (e) { handler e } finally { finalizer }] *)
Definition tryCatchFinally (body : Ui unit) (handler : Thrown → Ui unit)
    (finalizer : Ui unit) : Ui unit :=
  MkUi (λ st,
    let tried := runUi body st in
    let caught :=
      match ui_outcome tried with
      | Returned _ => tried
      | Threw t => prepend (ui_trace tried) (runUi (handler t) (ui_state tried))
      end in
    let final := runUi finalizer (ui_state caught) in
    MkUiRun (ui_trace caught ++ ui_trace final) (ui_state final)
            (match ui_outcome final with
             | Returned _ => ui_outcome caught
             | Threw t => Threw t
             end)).

(** The success branch of [fetchData] (lines 83-149).  The list shown is
    [uniqueEndpoints]; the statistics are taken from [result.data] and set
    last, after the three frequency tables have been built. *)
Definition onSuccess (env : Env) (result : FetchResult) : Ui unit :=
  unique ← liftJs (uniqueEndpoints (data result));
  setEndpoints unique;;
  setLastUpdated (Some (now env));;
  setDataSource (source result);;
  liftJs (console LLog [AStr "Loaded "; ANum (Z.of_nat (length unique));
                AStr " unique endpoints from ";
                AStr (match source result with api => "api" | mock => "mock" end);
                AStr " (";
                ANum (Z.of_nat (length (data result)) - Z.of_nat (length unique));
                AStr " duplicates removed)"]);;
  liftJs (console LLog [AStr "Sample endpoint IP data:";
                AVal (JArr (map (λ ep, JArr [hostname ep; JArr (ipAddresses ep)])
                                (take 3 unique)))]);;
  let loadedEndpoints := data result in
  liftJs (countBy (λ endpoint, Os.name (os endpoint)) loadedEndpoints);;
  liftJs (countBy type loadedEndpoints);;
  liftJs (countBy (λ endpoint, Group.name (group endpoint)) loadedEndpoints);;
  setStats (Some (computeStats loadedEndpoints)).

(** The [try] block of [fetchData]. *)
Definition fetchDataBody (env : Env) : Ui unit :=
  setLoading true;;
  setError None;;
  liftJs (console LLog [AStr "Loading endpoint data..."]);;
  result ← liftJs (getSophosEndpointData env);
  if success result then onSuccess env result
  else liftJs (throw (ErrorObject (errorOrDefault (error result)))).

(** [fetchData] (lines 66-160) as a handler. *)
Definition fetchDataHandler (env : Env) : Ui unit :=
  tryCatchFinally
    (fetchDataBody env)
    (λ err,
      setError (Some "Failed to fetch endpoint data");;
      liftJs (console LError [AStr "Error fetching data:"; AThrown err]))
    (setLoading false).

(** [fetchData]: the events of one cycle and the state it leaves. *)
Definition fetchData (env : Env) (st : DashboardState) : list Event * DashboardState :=
  let cycle := runUi (fetchDataHandler env) st in
  (ui_trace cycle, ui_state cycle).

(** ** Reading traces *)

(** The Tauri commands a trace called, in order. *)
Definition invokedCommands (tr : list Event) : list string :=
  omap (λ e, match e with Invoke cmd _ => Some cmd | Console _ _ => None end) tr.

(** The console warnings of a trace. *)
Definition warnings (tr : list Event) : list (list LogArg) :=
  omap (λ e, match e with Console LWarn args => Some args | _ => None end) tr.

(** The result of both mock branches but for [success] and [error]. *)
Definition mockResult (ok : bool) (err : option string) : FetchResult :=
  {| success := ok; data := mockEndpoints; source := mock; error := err |}.

(** What the [catch] block of [getSophosEndpointData] puts in [error]. *)
Definition fallbackMessage (env : Env) (err : Thrown) : string :=
  if instanceofError err then messageOf env err
  else "Unknown error occurred while fetching from Sophos API".

(** ** Deduplication as the specification words it *)

(** Of the records sharing an id, only the first-encountered one is kept:
    a record stays when no record before it in the list (kept or not) has
    its id.  [seen] holds the records already passed. *)
Fixpoint keepFirstAfter (seen l : list SophosEndpoint) : list SophosEndpoint :=
  match l with
  | [] => []
  | x :: l' =>
      if existsb (λ e, strictEq (id e) (id x)) seen
      then keepFirstAfter (seen ++ [x]) l'
      else x :: keepFirstAfter (seen ++ [x]) l'
  end.

Definition keepFirstById (l : list SophosEndpoint) : list SophosEndpoint :=
  keepFirstAfter [] l.

(** [acc] answers every id test as the records passed so far do. *)
Definition sameIds (seen acc : list SophosEndpoint) : Prop :=
  ∀ x, existsb (λ e, strictEq (id e) (id x)) seen
       = existsb (λ e, strictEq (id e) (id x)) acc.

(** No two records of the list have [===] ids. *)
Definition distinctIds (l : list SophosEndpoint) : Prop :=
  ∀ (i j : nat) (a b : SophosEndpoint),
    (i < j)%nat → l !! i = Some a → l !! j = Some b → strictEq (id a) (id b) = false.

(** The address lists as the specification words them: a field that holds
    a non-empty list, and a field read as a list with anything else taken
    as empty. *)
Definition nonEmptyList (v : option JsValue) : Prop :=
  ∃ x l, v = Some (JArr (x :: l)).

Definition listOrEmpty (v : option JsValue) : list JsValue :=
  match v with Some (JArr l) => l | _ => [] end.

(** A field of a nested object is absent when the outer field is absent or
    [null], or holds a value without the inner field. *)
Definition absentIn (o : gmap string JsValue) (outer inner : string) : Prop :=
  match o !! outer with
  | Some (JObj o') => o' !! inner = None
  | _ => True
  end.

(** The normalization function called twice on one raw record. *)
Definition normalizeTwice (item : JsValue) : Js (SophosEndpoint * SophosEndpoint) :=
  first ← normalizeItem item;
  second ← normalizeItem item;
  mret (first, second).

(** The property names the normalization function reads from a record. *)
Definition readKeys : list string :=
  ["ipAddresses"; "ip_addresses"; "ipv4Addresses"; "ipv6Addresses";
   "ipv4_addresses"; "ipv6_addresses"; "id"; "hostname"; "os"; "endpoint_type";
   "online"; "health"; "group"; "last_seen"].

(** ** Sample inputs *)

(** The object literal with the given entries. *)
Definition object (entries : list (string * JsValue)) : JsValue :=
  JObj (list_to_map entries).

Definition sampleCredentials : JsValue :=
  object [("client_id", JStr "id"); ("client_secret", JStr "secret");
          ("tenant_id", JStr "tenant"); ("region", JStr "us01")].

Definition sampleEnv (flag : option string) (credentials token : InvokeResult)
    (inventory : InvokeResult) : Env :=
  {| NEXT_PUBLIC_USE_MOCK_DATA := flag;
     load_sophos_credentials := credentials;
     get_sophos_access_token := token;
     fetch_sophos_endpoints := λ _, inventory;
     typeErrorMessage := λ _, "TypeError";
     now := 1700000000000 |}.

(** The flag forces mock data although everything else is in place. *)
Definition envForced : Env :=
  sampleEnv (Some "true") (Resolved sampleCredentials) (Resolved (JStr "token"))
            (Resolved (JArr [])).

(** The secrets file is missing: the backend rejects the call. *)
Definition envNoCredentials : Env :=
  sampleEnv (Some "false") (Rejected (Rejection (JStr "Secrets file not found")))
            (Resolved (JStr "token")) (Resolved (JArr [])).

(** The token exchange is rejected. *)
Definition envNoToken : Env :=
  sampleEnv None (Resolved sampleCredentials)
            (Rejected (Rejection (JStr "401 Unauthorized"))) (Resolved (JArr [])).

(** The inventory call is rejected. *)
Definition envFetchRejected : Env :=
  sampleEnv None (Resolved sampleCredentials) (Resolved (JStr "token"))
            (Rejected (Rejection (JStr "429 Too Many Requests"))).

(** Upstream sends two records with the id "42". *)
Definition raw42a : JsValue :=
  object [("id", JStr "42"); ("hostname", JStr "HOST-A"); ("online", JBool true)].
Definition raw42b : JsValue :=
  object [("id", JStr "42"); ("hostname", JStr "HOST-B"); ("online", JBool true)].

Definition envDuplicates : Env :=
  sampleEnv None (Resolved sampleCredentials) (Resolved (JStr "token"))
            (Resolved (JArr [raw42a; raw42b])).

(** The record of the specification's address example. *)
Definition rawSplitAddresses : gmap string JsValue :=
  list_to_map [("id", JStr "7"); ("ipAddresses", JArr []); ("ip_addresses", JArr []);
               ("ipv4Addresses", JArr [JStr "10.0.0.1"]);
               ("ipv6Addresses", JArr [JStr "::1"])].

(** A record with nothing but an id, and one whose fields are present but
    falsy. *)
Definition rawBare : gmap string JsValue := list_to_map [("id", JStr "9")].

Definition rawFalsy : gmap string JsValue :=
  list_to_map [("id", JStr "9"); ("hostname", JStr "");
               ("os", object [("name", JStr "")]);
               ("group", object [("name", JStr "")]);
               ("endpoint_type", JStr ""); ("online", JNum 0)].

(** The records deduplication drops: those with an earlier record of the
    same id. *)
Fixpoint duplicatesAfter (seen l : list SophosEndpoint) : list SophosEndpoint :=
  match l with
  | [] => []
  | x :: l' =>
      if existsb (λ e, strictEq (id e) (id x)) seen
      then x :: duplicatesAfter (seen ++ [x]) l'
      else duplicatesAfter (seen ++ [x]) l'
  end.

Definition duplicatesById (l : list SophosEndpoint) : list SophosEndpoint :=
  duplicatesAfter [] l.

(** The arguments of the warning logged for a dropped record. *)
Definition duplicateWarning (endpoint : SophosEndpoint) : list LogArg :=
  [AStr "Duplicate endpoint found: "; AVal (id endpoint);
   AStr " ("; AVal (hostname endpoint); AStr ")"].

(** The health value falls in none of the three buckets. *)
Definition outsideBuckets (e : SophosEndpoint) : Prop :=
  Health.overall (health e) ≠ JStr "good"
  ∧ Health.overall (health e) ≠ JStr "warning"
  ∧ Health.overall (health e) ≠ JStr "critical".

Definition inBucket (e : SophosEndpoint) : bool :=
  strictEq (Health.overall (health e)) (JStr "good")
  || strictEq (Health.overall (health e)) (JStr "warning")
  || strictEq (Health.overall (health e)) (JStr "critical").

(** The warning of every record deduplication drops can be written: the
    hostname of the dropped record converts to a string. *)
Definition warningsWritable (l : list SophosEndpoint) : bool :=
  forallb (λ e, convertible (hostname e)) (duplicatesById l).

(** The three frequency tables can be built: every OS name, type and group
    name converts to a property key. *)
Definition tablesCountable (l : list SophosEndpoint) : bool :=
  forallb (λ e, convertible (Os.name (os e))) l
  && forallb (λ e, convertible (type e)) l
  && forallb (λ e, convertible (Group.name (group e))) l.

(** ** The other bridge helpers of [sophos-api.ts] *)

(** [interface SophosCredentials] *)
Record SophosCredentials : Type := mkCredentials {
  client_id : string;
  client_secret : string;
  tenant_id : string;
  region : string
}.

(** The credentials as the value passed through the bridge. *)
Definition credentialsValue (c : SophosCredentials) : JsValue :=
  object [("client_id", JStr (client_id c)); ("client_secret", JStr (client_secret c));
          ("tenant_id", JStr (tenant_id c)); ("region", JStr (region c))].

(** The answers of the three Tauri commands no fetch cycle calls. *)
Record Backend : Type := mkBackend {
  save_sophos_credentials : JsValue → InvokeResult;
  get_secrets_file_path : InvokeResult;
  clear_cache : InvokeResult
}.

(** [saveSophosCredentials] (lines 54-62). *)
Definition saveSophosCredentials (backend : Backend) (credentials : SophosCredentials)
    : Js bool :=
  tryCatch
    (invoke "save_sophos_credentials" [("credentials", credentialsValue credentials)]
            (save_sophos_credentials backend (credentialsValue credentials));;
     mret true)
    (λ error,
      console LError [AStr "Error saving Sophos credentials:"; AThrown error];;
      mret false).

(** [getSecretsFilePath] (lines 67-74). *)
Definition getSecretsFilePath (backend : Backend) : Js JsValue :=
  tryCatch
    (invoke "get_secrets_file_path" [] (get_secrets_file_path backend))
    (λ error,
      console LError [AStr "Error getting secrets file path:"; AThrown error];;
      mret (JStr "")).

(** [clearSophosCache] (lines 200-208). *)
Definition clearSophosCache (backend : Backend) : Js bool :=
  tryCatch
    (invoke "clear_cache" [] (clear_cache backend);;
     mret true)
    (λ error,
      console LError [AStr "Error clearing cache:"; AThrown error];;
      mret false).

(** ** Reading an environment *)

(** The backend resolved the call. *)
Definition resolves (answer : InvokeResult) : bool :=
  match answer with Resolved _ => true | Rejected _ => false end.

(** The credential command gave a truthy value. *)
Definition credentialsFound (env : Env) : bool :=
  match load_sophos_credentials env with
  | Resolved v => truthy v
  | Rejected _ => false
  end.

(** What [getSophosAccessToken] hands back: the resolved value, or [null]. *)
Definition tokenValue (env : Env) : JsValue :=
  match get_sophos_access_token env with
  | Resolved v => v
  | Rejected _ => JNull
  end.

(** The token command gave a truthy value. *)
Definition tokenObtained (env : Env) : bool := truthy (tokenValue env).

(** The inventory payload is an array none of whose items is [null] or
    [undefined]. *)
Definition wellFormedInventory (answer : InvokeResult) : bool :=
  match answer with
  | Resolved (JArr raws) => forallb (λ v, negb (nullish v)) raws
  | _ => false
  end.

(** ** [src/app/page.tsx]: the [clearCache] handler *)

(** The dashboard state together with the [isClearing] flag. *)
Record PageState : Type := mkPage {
  dashboard : DashboardState;
  isClearing : bool
}.

(** [clearCache] (lines 162-174).  [fetchData] does not throw, so it enters
    the [try] block as a computation that returns the state it leaves. *)
Definition clearCache (env : Env) (backend : Backend) (st : PageState)
    : list Event * PageState :=
  let body : Js DashboardState :=
    invoke "clear_cache" [] (clear_cache backend);;
    console LLog [AStr "Cache cleared successfully"];;
    MkJs (fst (fetchData env (dashboard st)))
         (Returned (snd (fetchData env (dashboard st)))) in
  match outcome body with
  | Returned d => (trace body, {| dashboard := d; isClearing := false |})
  | Threw error =>
      (trace body ++ [Console LError [AStr "Failed to clear cache:"; AThrown error]],
       {| dashboard := dashboard st; isClearing := false |})
  end.

(** ** Sample inputs for the helpers *)

Definition sampleSecrets : SophosCredentials :=
  {| client_id := "id"; client_secret := "secret"; tenant_id := "tenant";
     region := "us01" |}.

Definition backendOk : Backend :=
  {| save_sophos_credentials := λ _, Resolved (JStr "saved");
     get_secrets_file_path := Resolved (JStr "C:/Users/u/AppData/Roaming/sophos-dashboard/sophos_secrets.json");
     clear_cache := Resolved (JStr "Cache cleared") |}.

Definition backendDown : Backend :=
  {| save_sophos_credentials := λ _, Rejected (Rejection (JStr "disk full"));
     get_secrets_file_path := Rejected (Rejection (JStr "no config dir"));
     clear_cache := Rejected (Rejection (JStr "cache locked")) |}.

(** Upstream sends a valid record and a [null]. *)
Definition envNullRecord : Env :=
  sampleEnv None (Resolved sampleCredentials) (Resolved (JStr "token"))
            (Resolved (JArr [raw42a; JNull])).

(** Upstream sends one record, three times, and a second one. *)
Definition rawOther : JsValue :=
  object [("id", JStr "43"); ("hostname", JStr "HOST-C"); ("online", JBool false)].

Definition envTriplicate : Env :=
  sampleEnv None (Resolved sampleCredentials) (Resolved (JStr "token"))
            (Resolved (JArr [raw42a; rawOther; raw42b; raw42a])).

(** A raw record of the vendor's shape. *)
Definition rawPlain : gmap string JsValue :=
  list_to_map [("id", JStr "5"); ("hostname", JStr "SRV"); ("endpoint_type", JStr "server");
               ("last_seen", JStr "2024-01-15T11:20:00Z")].

(** ** [src/app/page.tsx]: the table and its filters *)

(** The values of the status and health selects. *)
Inductive StatusFilter : Type := statusAll | statusOnline | statusOffline.
Inductive HealthFilter : Type := healthAll | healthGood | healthWarning | healthCritical.

(** The [value] of a health option. *)
Definition healthValue (h : HealthFilter) : string :=
  match h with
  | healthAll => "all"
  | healthGood => "good"
  | healthWarning => "warning"
  | healthCritical => "critical"
  end.

(** The search box and the five filters (lines 54-59).  The OS, type and
    group filters hold "all" or a name. *)
Record Filters : Type := mkFilters {
  searchTerm : string;
  statusFilter : StatusFilter;
  healthFilter : HealthFilter;
  osFilter : string;
  typeFilter : string;
  groupFilter : string
}.

(** The [useState] initialisers. *)
Definition initialFilters : Filters :=
  {| searchTerm := ""; statusFilter := statusAll; healthFilter := healthAll;
     osFilter := "all"; typeFilter := "all"; groupFilter := "all" |}.

(** The "Clear Search & Filters" button (lines 486-493): the group filter
    is left as it is. *)
Definition clearSearchAndFilters (f : Filters) : Filters :=
  {| searchTerm := ""; statusFilter := statusAll; healthFilter := healthAll;
     osFilter := "all"; typeFilter := "all"; groupFilter := groupFilter f |}.

(** [s.includes(sub)] *)
Fixpoint includes (s sub : string) : bool :=
  match s with
  | EmptyString => String.prefix sub ""
  | String _ s' => String.prefix sub s || includes s' sub
  end.

(** [arr.filter(p)] for a callback that may throw ([None]): the first
    exception ends the whole call. *)
Fixpoint filterRows {A : Type} (p : A → option bool) (l : list A) : option (list A) :=
  match l with
  | [] => Some []
  | x :: l' =>
      match p x with
      | None => None
      | Some keep =>
          match filterRows p l' with
          | None => None
          | Some rows => Some (if keep then x :: rows else rows)
          end
      end
  end.

Section Table.

(** [String.prototype.toLowerCase], left to the engine. *)
Variable toLowerCase : string → string.

(** [v.toLowerCase().includes(term.toLowerCase())].  Only a string has the
    method: on any other value the call is a [TypeError] ([None]). *)
Definition lowerIncludes (v : JsValue) (term : string) : option bool :=
  match v with
  | JStr s => Some (includes (toLowerCase s) (toLowerCase term))
  | _ => None
  end.

(** [matchesSearch] (lines 181-183); [||] evaluates its right operand only
    when the left one is false. *)
Definition matchesSearch (endpoint : SophosEndpoint) (term : string) : option bool :=
  match lowerIncludes (hostname endpoint) term with
  | None => None
  | Some true => Some true
  | Some false =>
      match lowerIncludes (Os.name (os endpoint)) term with
      | None => None
      | Some true => Some true
      | Some false => lowerIncludes (Group.name (group endpoint)) term
      end
  end.

(** [matchesStatus] (lines 185-187), as the truth value the final [&&]
    sees. *)
Definition matchesStatus (f : Filters) (endpoint : SophosEndpoint) : bool :=
  match statusFilter f with
  | statusAll => true
  | statusOnline => truthy (online endpoint)
  | statusOffline => negb (truthy (online endpoint))
  end.

(** [matchesHealth] (line 189). *)
Definition matchesHealth (f : Filters) (endpoint : SophosEndpoint) : bool :=
  String.eqb (healthValue (healthFilter f)) "all"
  || strictEq (Health.overall (health endpoint)) (JStr (healthValue (healthFilter f))).

(** [matchesOs], [matchesType], [matchesGroup] (lines 191-195). *)
Definition matchesOs (f : Filters) (endpoint : SophosEndpoint) : bool :=
  String.eqb (osFilter f) "all" || strictEq (Os.name (os endpoint)) (JStr (osFilter f)).

Definition matchesType (f : Filters) (endpoint : SophosEndpoint) : bool :=
  String.eqb (typeFilter f) "all" || strictEq (type endpoint) (JStr (typeFilter f)).

Definition matchesGroup (f : Filters) (endpoint : SophosEndpoint) : bool :=
  String.eqb (groupFilter f) "all"
  || strictEq (Group.name (group endpoint)) (JStr (groupFilter f)).

(** The callback of [endpoints.filter] (lines 180-198). *)
Definition matchesFilters (f : Filters) (endpoint : SophosEndpoint) : option bool :=
  match matchesSearch endpoint (searchTerm f) with
  | None => None
  | Some found =>
      Some (found && matchesStatus f endpoint && matchesHealth f endpoint
            && matchesOs f endpoint && matchesType f endpoint
            && matchesGroup f endpoint)
  end.

(** [filteredEndpoints] (lines 180-198); [None] when rendering throws. *)
Definition filteredEndpoints (f : Filters) (endpoints : list SophosEndpoint)
    : option (list SophosEndpoint) :=
  filterRows (matchesFilters f) endpoints.

End Table.

(** The icon of [getHealthIcon] (lines 200-211). *)
Inductive HealthIcon : Type :=
  | greenCheck | yellowTriangle | redCross | grayTriangle.

Definition getHealthIcon (h : JsValue) : HealthIcon :=
  if strictEq h (JStr "good") then greenCheck
  else if strictEq h (JStr "warning") then yellowTriangle
  else if strictEq h (JStr "critical") then redCross
  else grayTriangle.

(** The badge of [getStatusBadge] (lines 213-223). *)
Inductive StatusBadge : Type := badgeOnline | badgeOffline.

Definition getStatusBadge (onl : JsValue) : StatusBadge :=
  if truthy onl then badgeOnline else badgeOffline.

(** The address cell of a row (lines 640-653): "No IP", or the first
    address and, when there are more, how many more. *)
Inductive IpCell : Type :=
  | noIp
  | firstIp (address : JsValue) (more : option Z).

Definition ipCell (endpoint : SophosEndpoint) : IpCell :=
  match ipAddresses endpoint with
  | [] => noIp
  | address :: rest =>
      firstIp address
        (if (1 <? length (ipAddresses endpoint))%nat
         then Some (Z.of_nat (length (ipAddresses endpoint)) - 1)
         else None)
  end.

(** ASCII lower-casing, a stand-in for the engine's on sample inputs. *)
Fixpoint asciiLower (s : string) : string :=
  match s with
  | EmptyString => EmptyString
  | String c s' =>
      let n := Ascii.nat_of_ascii c in
      String (if (65 <=? n)%nat && (n <=? 90)%nat
              then Ascii.ascii_of_nat (n + 32) else c)
             (asciiLower s')
  end.

(** A record whose hostname upstream sent as a number. *)
Definition rawNumericHostname : gmap string JsValue :=
  list_to_map [("id", JStr "77"); ("hostname", JNum 12345)].

(** The setters of the status, health and group filters. *)
Definition setStatusFilter (s : StatusFilter) (f : Filters) : Filters :=
  {| searchTerm := searchTerm f; statusFilter := s; healthFilter := healthFilter f;
     osFilter := osFilter f; typeFilter := typeFilter f; groupFilter := groupFilter f |}.

Definition setHealthFilter (h : HealthFilter) (f : Filters) : Filters :=
  {| searchTerm := searchTerm f; statusFilter := statusFilter f; healthFilter := h;
     osFilter := osFilter f; typeFilter := typeFilter f; groupFilter := groupFilter f |}.

Definition setGroupFilter (g : string) (f : Filters) : Filters :=
  {| searchTerm := searchTerm f; statusFilter := statusFilter f;
     healthFilter := healthFilter f;
     osFilter := osFilter f; typeFilter := typeFilter f; groupFilter := g |}.

(** The callback kept the row. *)
Definition keeps {A : Type} (p : A → option bool) (x : A) : bool :=
  match p x with Some true => true | _ => false end.

(** The row of the endpoint carries the icon. *)
Definition hasIcon (i : HealthIcon) (endpoint : SophosEndpoint) : bool :=
  match getHealthIcon (Health.overall (health endpoint)), i with
  | greenCheck, greenCheck | yellowTriangle, yellowTriangle
  | redCross, redCross | grayTriangle, grayTriangle => true
  | _, _ => false
  end.

(** The row of the endpoint carries the "Online" badge. *)
Definition hasOnlineBadge (endpoint : SophosEndpoint) : bool :=
  match getStatusBadge (online endpoint) with
  | badgeOnline => true
  | badgeOffline => false
  end.

(** ** [src/lib/sophos-config.ts]

    [getSophosConfig] takes the credentials from the environment or from
    the constant [SOPHOS_CONFIG].  The constant holds credentials, which
    are not repeated here: it enters as a parameter.  The source sets its
    [USE_REAL_API] to [true]. *)
Module Config.

Record SophosConfig : Type := mkConfig {
  USE_REAL_API : bool;
  CLIENT_ID : string;
  CLIENT_SECRET : string;
  TENANT_ID : string;
  REGION : string
}.

(** The four [process.env] variables the helper reads. *)
Record ProcessEnv : Type := mkProcessEnv {
  NEXT_PUBLIC_SOPHOS_CLIENT_ID : option string;
  NEXT_PUBLIC_SOPHOS_CLIENT_SECRET : option string;
  NEXT_PUBLIC_SOPHOS_TENANT_ID : option string;
  NEXT_PUBLIC_SOPHOS_REGION : option string
}.

(** The object the helper returns. *)
Record Credentials : Type := mkCredentials {
  clientId : string;
  clientSecret : string;
  tenantId : string;
  region : string
}.

(** Truthiness of an environment variable: set and not empty. *)
Definition isSet (v : option string) : bool :=
  match v with
  | Some s => negb (String.eqb s "")
  | None => false
  end.

(** [v || fallback] *)
Definition orElse (v : option string) (fallback : string) : string :=
  match v with
  | Some s => if String.eqb s "" then fallback else s
  | None => fallback
  end.

(** [envConfig.clientId && envConfig.clientSecret && envConfig.tenantId] *)
Definition envComplete (penv : ProcessEnv) : bool :=
  isSet (NEXT_PUBLIC_SOPHOS_CLIENT_ID penv)
  && isSet (NEXT_PUBLIC_SOPHOS_CLIENT_SECRET penv)
  && isSet (NEXT_PUBLIC_SOPHOS_TENANT_ID penv).

(** [getSophosConfig] (lines 17-51); [None] is its [null].  In the first
    branch the three variables are set, so the default of [default] is
    never taken. *)
Definition getSophosConfig (cfg : SophosConfig) (penv : ProcessEnv)
    : Js (option Credentials) :=
  if envComplete penv then
    console LLog [AStr "Using environment variables for Sophos credentials"];;
    mret (Some {| clientId := default "" (NEXT_PUBLIC_SOPHOS_CLIENT_ID penv);
                  clientSecret := default "" (NEXT_PUBLIC_SOPHOS_CLIENT_SECRET penv);
                  tenantId := default "" (NEXT_PUBLIC_SOPHOS_TENANT_ID penv);
                  region := orElse (NEXT_PUBLIC_SOPHOS_REGION penv) "us01" |})
  else if USE_REAL_API cfg then
    console LLog [AStr "Using hardcoded Sophos credentials (environment variables not available)"];;
    mret (Some {| clientId := CLIENT_ID cfg; clientSecret := CLIENT_SECRET cfg;
                  tenantId := TENANT_ID cfg; region := REGION cfg |})
  else
    console LLog [AStr "No Sophos credentials configured"];;
    mret None.

(** A configuration shaped like the source's, and an environment that sets
    everything but the tenant. *)
Definition sampleConfig : SophosConfig :=
  {| USE_REAL_API := true; CLIENT_ID := "built-in-client";
     CLIENT_SECRET := "built-in-secret"; TENANT_ID := "built-in-tenant";
     REGION := "us01" |}.

Definition partialEnv : ProcessEnv :=
  {| NEXT_PUBLIC_SOPHOS_CLIENT_ID := Some "env-client";
     NEXT_PUBLIC_SOPHOS_CLIENT_SECRET := Some "env-secret";
     NEXT_PUBLIC_SOPHOS_TENANT_ID := None;
     NEXT_PUBLIC_SOPHOS_REGION := Some "eu01" |}.

End Config.

(** The record normalization builds from an item with no readable field. *)
Definition placeholderEndpoint : SophosEndpoint :=
  {| id := JUndefined; hostname := JStr "Unknown";
     os := {| Os.name := JStr "Unknown OS"; Os.version := JUndefined |};
     type := JStr "computer"; online := JBool false;
     health := {| Health.overall := JStr "unknown" |};
     group := {| Group.name := JStr "No Group" |};
     ipAddresses := []; lastSeen := JUndefined |}.

(** An item is an object. *)
Definition isObject (v : JsValue) : bool :=
  match v with JObj _ => true | _ => false end.

(** A record whose OS name is an object with a [toString] entry, which
    does not convert to a string. *)
Definition rawUnprintableOs : JsValue :=
  object [("id", JStr "1"); ("hostname", JStr "HOST-A");
          ("os", object [("name", object [("toString", JNum 1)])])].

Definition envUnprintableOs : Env :=
  sampleEnv None (Resolved sampleCredentials) (Resolved (JStr "token"))
            (Resolved (JArr [rawUnprintableOs])).

(** The second record of the id "42" has such a hostname. *)
Definition rawUnprintableDuplicate : JsValue :=
  object [("id", JStr "42"); ("hostname", object [("toString", JNum 1)])].

Definition envUnprintableDuplicate : Env :=
  sampleEnv None (Resolved sampleCredentials) (Resolved (JStr "token"))
            (Resolved (JArr [raw42a; rawUnprintableDuplicate])).

(** * Properties *)

(** ** The effect monad *)

Lemma bind_returned {A B : Type} (m : Js A) (f : A → Js B) (a : A) :
  outcome m = Returned a →
  m ≫= f = MkJs (trace m ++ trace (f a)) (outcome (f a)).
Proof. intros H. unfold mbind, js_bind. now rewrite H. Qed.

Lemma bind_threw {A B : Type} (m : Js A) (f : A → Js B) (t : Thrown) :
  outcome m = Threw t → m ≫= f = MkJs (trace m) (Threw t).
Proof. intros H. unfold mbind, js_bind. now rewrite H. Qed.

Lemma tryCatch_returned {A : Type} (m : Js A) (h : Thrown → Js A) (a : A) :
  outcome m = Returned a → tryCatch m h = m.
Proof. intros H. unfold tryCatch. now rewrite H. Qed.

Lemma tryCatch_threw {A : Type} (m : Js A) (h : Thrown → Js A) (t : Thrown) :
  outcome m = Threw t →
  tryCatch m h = MkJs (trace m ++ trace (h t)) (outcome (h t)).
Proof. intros H. unfold tryCatch. now rewrite H. Qed.

(** A handler that logs and rethrows leaves the outcome as it was. *)
Lemma tryCatch_rethrow {A : Type} (m : Js A) (log : Thrown → Js unit) :
  (∀ t, outcome (log t) = Returned tt) →
  outcome (tryCatch m (λ e, log e;; throw e)) = outcome m.
Proof.
  intros Hlog. unfold tryCatch.
  destruct (outcome m) as [a|t] eqn:E; [exact E|].
  cbn [outcome]. rewrite (bind_returned _ _ tt (Hlog t)). reflexivity.
Qed.

(** A [try] whose handler returns cannot throw. *)
Lemma tryCatch_total {A : Type} (m : Js A) (h : Thrown → Js A) :
  (∀ t, ∃ a, outcome (h t) = Returned a) →
  ∃ a, outcome (tryCatch m h) = Returned a.
Proof.
  intros Hh. unfold tryCatch.
  destruct (outcome m) as [a|t] eqn:E.
  - exists a. exact E.
  - destruct (Hh t) as [a Ha]. exists a. exact Ha.
Qed.

(** ** The helpers of [sophos-api.ts] *)

Lemma loadSophosCredentials_eq (env : Env) :
  loadSophosCredentials env =
  match load_sophos_credentials env with
  | Resolved v => MkJs [Invoke "load_sophos_credentials" []] (Returned v)
  | Rejected t =>
      MkJs [Invoke "load_sophos_credentials" [];
            Console LError [AStr "Error loading Sophos credentials:"; AThrown t]]
           (Returned JNull)
  end.
Proof.
  unfold loadSophosCredentials, invoke.
  destruct (load_sophos_credentials env); reflexivity.
Qed.

Lemma getSophosAccessToken_eq (env : Env) :
  getSophosAccessToken env =
  match get_sophos_access_token env with
  | Resolved v => MkJs [Invoke "get_sophos_access_token" []] (Returned v)
  | Rejected t =>
      MkJs [Invoke "get_sophos_access_token" [];
            Console LError [AStr "Error getting Sophos access token:"; AThrown t]]
           (Returned JNull)
  end.
Proof.
  unfold getSophosAccessToken, invoke.
  destruct (get_sophos_access_token env); reflexivity.
Qed.

Lemma loadSophosCredentials_total (env : Env) :
  ∃ v, outcome (loadSophosCredentials env) = Returned v.
Proof.
  rewrite loadSophosCredentials_eq.
  destruct (load_sophos_credentials env); eexists; reflexivity.
Qed.

Lemma getSophosAccessToken_total (env : Env) :
  ∃ v, outcome (getSophosAccessToken env) = Returned v.
Proof.
  rewrite getSophosAccessToken_eq.
  destruct (get_sophos_access_token env); eexists; reflexivity.
Qed.

Lemma invokedCommands_loadSophosCredentials (env : Env) :
  invokedCommands (trace (loadSophosCredentials env)) = ["load_sophos_credentials"].
Proof.
  rewrite loadSophosCredentials_eq.
  destruct (load_sophos_credentials env); reflexivity.
Qed.

(** ** The branches of [getSophosEndpointData] *)

Lemma getSophosEndpointData_forced (env : Env) :
  forceMockData env = true →
  getSophosEndpointData env =
  MkJs [Console LLog [AStr "Using mock data (forced by USE_MOCK_DATA=true)"]]
       (Returned (mockResult true None)).
Proof. intros H. unfold getSophosEndpointData. rewrite H. reflexivity. Qed.

Lemma getSophosEndpointData_no_credentials (env : Env) (credentials : JsValue) :
  forceMockData env = false →
  outcome (loadSophosCredentials env) = Returned credentials →
  truthy credentials = false →
  getSophosEndpointData env =
  MkJs (Console LLog [AStr "Attempting to fetch data from Sophos Central API..."]
          :: trace (loadSophosCredentials env)
          ++ [Console LLog [AStr "No Sophos API credentials found, using mock data"]])
       (Returned (mockResult true None)).
Proof.
  intros Hf Hc Ht. unfold getSophosEndpointData. rewrite Hf.
  rewrite (bind_returned (console _ _) _ tt) by reflexivity.
  rewrite (bind_returned _ _ _ Hc). rewrite Ht. simpl.
  reflexivity.
Qed.

Lemma getSophosEndpointData_no_token (env : Env) (credentials accessToken : JsValue) :
  forceMockData env = false →
  outcome (loadSophosCredentials env) = Returned credentials →
  truthy credentials = true →
  outcome (getSophosAccessToken env) = Returned accessToken →
  truthy accessToken = false →
  outcome (getSophosEndpointData env) =
  Returned (mockResult false (Some "Failed to obtain access token from Sophos Central")).
Proof.
  intros Hf Hc Ht Ha Hn. unfold getSophosEndpointData. rewrite Hf.
  rewrite (bind_returned (console _ _) _ tt) by reflexivity.
  rewrite (bind_returned _ _ _ Hc). rewrite Ht. simpl negb. cbv iota.
  rewrite (bind_returned _ _ _ Ha). rewrite Hn. simpl.
  reflexivity.
Qed.

Lemma getSophosEndpointData_fetch_failed (env : Env)
    (credentials accessToken : JsValue) (t : Thrown) :
  forceMockData env = false →
  outcome (loadSophosCredentials env) = Returned credentials →
  truthy credentials = true →
  outcome (getSophosAccessToken env) = Returned accessToken →
  truthy accessToken = true →
  outcome (fetchSophosEndpoints env accessToken) = Threw t →
  outcome (getSophosEndpointData env) =
  Returned (mockResult false (Some (fallbackMessage env t))).
Proof.
  intros Hf Hc Ht Ha Hn Hx. unfold getSophosEndpointData. rewrite Hf.
  rewrite (bind_returned (console _ _) _ tt) by reflexivity.
  rewrite (bind_returned _ _ _ Hc). rewrite Ht. simpl negb. cbv iota.
  rewrite (bind_returned _ _ _ Ha). rewrite Hn. simpl negb. cbv iota.
  rewrite (bind_returned (console _ _) _ tt) by reflexivity.
  rewrite (bind_threw _ _ _ Hx). simpl.
  reflexivity.
Qed.

Lemma getSophosEndpointData_fetched (env : Env)
    (credentials accessToken : JsValue) (endpoints : list SophosEndpoint) :
  forceMockData env = false →
  outcome (loadSophosCredentials env) = Returned credentials →
  truthy credentials = true →
  outcome (getSophosAccessToken env) = Returned accessToken →
  truthy accessToken = true →
  outcome (fetchSophosEndpoints env accessToken) = Returned endpoints →
  outcome (getSophosEndpointData env) =
  Returned {| success := true; data := endpoints; source := api; error := None |}.
Proof.
  intros Hf Hc Ht Ha Hn Hx. unfold getSophosEndpointData. rewrite Hf.
  rewrite (bind_returned (console _ _) _ tt) by reflexivity.
  rewrite (bind_returned _ _ _ Hc). rewrite Ht. simpl negb. cbv iota.
  rewrite (bind_returned _ _ _ Ha). rewrite Hn. simpl negb. cbv iota.
  rewrite (bind_returned (console _ _) _ tt) by reflexivity.
  rewrite (bind_returned _ _ _ Hx). simpl.
  reflexivity.
Qed.

(** ** Claims on [getSophosEndpointData] *)

(** C6. When the force-mock flag is set, whatever the credential state,
    [getSophosEndpointData] returns [success = true], [source = "mock"] and
    the fixed sample of ten records, and calls none of the Tauri commands:
    no credential loading, no token exchange, no inventory fetch. *)
Theorem force_mock_short_circuits (env : Env) :
  NEXT_PUBLIC_USE_MOCK_DATA env = Some "true" →
  ∃ r, outcome (getSophosEndpointData env) = Returned r
     ∧ success r = true ∧ source r = mock ∧ error r = None
     ∧ data r = mockEndpoints ∧ length (data r) = 10%nat
     ∧ invokedCommands (trace (getSophosEndpointData env)) = [].
Proof.
  intros Hflag.
  assert (Hf : forceMockData env = true) by (unfold forceMockData; now rewrite Hflag).
  rewrite (getSophosEndpointData_forced env Hf).
  exists (mockResult true None). repeat split; reflexivity.
Qed.

Lemma force_mock_short_circuits_witness :
  ∃ r, outcome (getSophosEndpointData envForced) = Returned r
     ∧ success r = true ∧ source r = mock ∧ error r = None
     ∧ data r = mockEndpoints ∧ length (data r) = 10%nat
     ∧ invokedCommands (trace (getSophosEndpointData envForced)) = [].
Proof. apply (force_mock_short_circuits envForced). reflexivity. Defined.

(** C1, as the specification words it, fails: with the flag unset and the
    credentials missing, the result has [success = true] and no [error]. *)
Lemma missing_credentials_not_a_failure :
  forceMockData envNoCredentials = false
  ∧ outcome (loadSophosCredentials envNoCredentials) = Returned JNull
  ∧ ¬ (∃ r, outcome (getSophosEndpointData envNoCredentials) = Returned r
          ∧ success r = false ∧ error r ≠ None).
Proof.
  split; [reflexivity|]. split; [reflexivity|].
  intros (r & Hr & Hs & _).
  vm_compute in Hr. inversion Hr; subst r. discriminate Hs.
Qed.

(** C1, amended. With the force-mock flag unset, if loading the credentials
    gives [null], [getSophosEndpointData] returns, without throwing, the
    fixed mock dataset with [source = "mock"], [success = true] and no
    [error]; it has called the credential command and nothing else. *)
Theorem missing_credentials_give_mock (env : Env) :
  forceMockData env = false →
  outcome (loadSophosCredentials env) = Returned JNull →
  ∃ r, outcome (getSophosEndpointData env) = Returned r
     ∧ data r = mockEndpoints ∧ source r = mock
     ∧ success r = true ∧ error r = None
     ∧ invokedCommands (trace (getSophosEndpointData env)) = ["load_sophos_credentials"].
Proof.
  intros Hf Hc.
  rewrite (getSophosEndpointData_no_credentials env JNull Hf Hc eq_refl).
  exists (mockResult true None). repeat split; try reflexivity.
  cbn [trace]. unfold invokedCommands.
  change (Console LLog [AStr "Attempting to fetch data from Sophos Central API..."]
            :: trace (loadSophosCredentials env)
            ++ [Console LLog [AStr "No Sophos API credentials found, using mock data"]])
    with ([Console LLog [AStr "Attempting to fetch data from Sophos Central API..."]]
            ++ trace (loadSophosCredentials env)
            ++ [Console LLog [AStr "No Sophos API credentials found, using mock data"]]).
  rewrite !omap_app. fold (invokedCommands (trace (loadSophosCredentials env))).
  rewrite invokedCommands_loadSophosCredentials. reflexivity.
Qed.

Lemma missing_credentials_give_mock_witness :
  ∃ r, outcome (getSophosEndpointData envNoCredentials) = Returned r
     ∧ data r = mockEndpoints ∧ source r = mock
     ∧ success r = true ∧ error r = None
     ∧ invokedCommands (trace (getSophosEndpointData envNoCredentials))
       = ["load_sophos_credentials"].
Proof. apply (missing_credentials_give_mock envNoCredentials); reflexivity. Defined.

(** C7. [getSophosEndpointData] never throws: it returns a result in every
    environment (the handler of its [catch] only builds a record around the
    constant mock dataset).  When the credentials are there and the token
    cannot be obtained, or the endpoint fetch throws, the result has
    [success = false], [source = "mock"], the mock dataset as [data], and
    [error] set to a message. *)
Theorem getSophosEndpointData_never_throws (env : Env) :
  (∃ r, outcome (getSophosEndpointData env) = Returned r)
  ∧ (∀ credentials accessToken,
       forceMockData env = false →
       outcome (loadSophosCredentials env) = Returned credentials →
       truthy credentials = true →
       outcome (getSophosAccessToken env) = Returned accessToken →
       truthy accessToken = false
         ∨ (∃ t, outcome (fetchSophosEndpoints env accessToken) = Threw t) →
       ∃ msg, outcome (getSophosEndpointData env) =
              Returned {| success := false; data := mockEndpoints;
                          source := mock; error := Some msg |}).
Proof.
  split.
  - unfold getSophosEndpointData.
    destruct (forceMockData env).
    + eexists; reflexivity.
    + apply tryCatch_total. intros t. eexists; reflexivity.
  - intros credentials accessToken Hf Hc Ht Ha Hfail.
    destruct (truthy accessToken) eqn:Hn.
    + destruct Hfail as [Hfail | [t Hx]]; [discriminate Hfail|].
      exists (fallbackMessage env t).
      exact (getSophosEndpointData_fetch_failed env _ _ t Hf Hc Ht Ha Hn Hx).
    + exists "Failed to obtain access token from Sophos Central".
      exact (getSophosEndpointData_no_token env _ _ Hf Hc Ht Ha Hn).
Qed.

Lemma getSophosEndpointData_never_throws_witness :
  (∃ msg, outcome (getSophosEndpointData envNoToken) =
          Returned {| success := false; data := mockEndpoints;
                      source := mock; error := Some msg |})
  ∧ (∃ msg, outcome (getSophosEndpointData envFetchRejected) =
          Returned {| success := false; data := mockEndpoints;
                      source := mock; error := Some msg |}).
Proof.
  split.
  - apply (proj2 (getSophosEndpointData_never_throws envNoToken)
             sampleCredentials JNull); try reflexivity.
    left; reflexivity.
  - apply (proj2 (getSophosEndpointData_never_throws envFetchRejected)
             sampleCredentials (JStr "token")); try reflexivity.
    right. exists (Rejection (JStr "429 Too Many Requests")). reflexivity.
Defined.

(** ** The normalization function *)

Lemma normalizeItem_object (o : gmap string JsValue) :
  normalizeItem (JObj o) = MkJs [] (Returned (canonical (JObj o))).
Proof. reflexivity. Qed.

Lemma nonEmptyArray_field (o : gmap string JsValue) (k : string) :
  nonEmptyArray (field (JObj o) k) = true ↔ nonEmptyList (o !! k).
Proof.
  unfold nonEmptyArray, nonEmptyList, field.
  destruct (o !! k) as [v|]; simpl.
  - destruct v as [| | b | q | s | l | o']; simpl;
      try (split; [intros H; try discriminate H;
                   rewrite ?andb_false_r in H; discriminate H
                  | intros (x & l' & H); discriminate H]).
    destruct l as [|x l]; simpl.
    + split; [discriminate | intros (x & l' & H); discriminate H].
    + split; [intros _; exists x, l; reflexivity | reflexivity].
  - split; [discriminate | intros (x & l' & H); discriminate H].
Qed.

Lemma nonEmptyArray_field_false (o : gmap string JsValue) (k : string) :
  ¬ nonEmptyList (o !! k) → nonEmptyArray (field (JObj o) k) = false.
Proof.
  intros H. destruct (nonEmptyArray (field (JObj o) k)) eqn:E; [|reflexivity].
  exfalso. apply H. now apply nonEmptyArray_field.
Qed.

Lemma arrayOrEmpty_field (o : gmap string JsValue) (k : string) :
  arrayOrEmpty (field (JObj o) k) = listOrEmpty (o !! k).
Proof.
  unfold arrayOrEmpty, listOrEmpty, field.
  destruct (o !! k) as [v|]; simpl; [|reflexivity].
  destruct v as [| | b | q | s | l | o']; simpl; try reflexivity.
  - now destruct b.
  - now destruct (negb (Qeq_bool q 0)).
  - now destruct (negb (String.eqb s "")).
Qed.

Lemma jsOr_falsy (a b : JsValue) : truthy a = false → jsOr a b = b.
Proof. intros H. unfold jsOr. now rewrite H. Qed.

Lemma jsOr_not_nullish (a b : JsValue) : truthy b = true → truthy (jsOr a b) = true.
Proof. intros H. unfold jsOr. destruct (truthy a) eqn:E; assumption. Qed.

Lemma truthy_not_nullish (v : JsValue) : truthy v = true → nullish v = false.
Proof. destruct v; simpl; congruence. Qed.

(** The inner read [item.outer?.inner] on an object. *)
Lemma optField_absent (o : gmap string JsValue) (outer inner : string) :
  absentIn o outer inner → optField (field (JObj o) outer) inner = JUndefined.
Proof.
  unfold absentIn, optField, field.
  destruct (o !! outer) as [v|]; simpl; [|reflexivity].
  destruct v as [| | b | q | s | l | o']; simpl; try reflexivity.
  intros ->. reflexivity.
Qed.

Lemma optField_present (o o' : gmap string JsValue) (outer inner : string) (v : JsValue) :
  o !! outer = Some (JObj o') → o' !! inner = Some v →
  optField (field (JObj o) outer) inner = v.
Proof. intros H H'. unfold optField, field. rewrite H. simpl. now rewrite H'. Qed.

(** C4. The normalized [ipAddresses] of a raw record: a non-empty list in
    [ipAddresses] is used verbatim; else a non-empty list in [ip_addresses];
    else the concatenation, in this order, of [ipv4Addresses],
    [ipv6Addresses], [ipv4_addresses], [ipv6_addresses], a missing field
    counting as the empty list.  So empty [ipAddresses] and [ip_addresses]
    with [ipv4Addresses = ["10.0.0.1"]] and [ipv6Addresses = ["::1"]] give
    [["10.0.0.1", "::1"]]. *)
Theorem ip_resolution_order (o : gmap string JsValue) :
  ∃ rec, outcome (normalizeItem (JObj o)) = Returned rec
  ∧ (nonEmptyList (o !! "ipAddresses") →
       o !! "ipAddresses" = Some (JArr (ipAddresses rec)))
  ∧ (¬ nonEmptyList (o !! "ipAddresses") → nonEmptyList (o !! "ip_addresses") →
       o !! "ip_addresses" = Some (JArr (ipAddresses rec)))
  ∧ (¬ nonEmptyList (o !! "ipAddresses") → ¬ nonEmptyList (o !! "ip_addresses") →
       ipAddresses rec =
         listOrEmpty (o !! "ipv4Addresses") ++ listOrEmpty (o !! "ipv6Addresses")
         ++ listOrEmpty (o !! "ipv4_addresses") ++ listOrEmpty (o !! "ipv6_addresses"))
  ∧ (o !! "ipAddresses" = Some (JArr []) → o !! "ip_addresses" = Some (JArr []) →
     o !! "ipv4Addresses" = Some (JArr [JStr "10.0.0.1"]) →
     o !! "ipv6Addresses" = Some (JArr [JStr "::1"]) →
     o !! "ipv4_addresses" = None → o !! "ipv6_addresses" = None →
       ipAddresses rec = [JStr "10.0.0.1"; JStr "::1"]).
Proof.
  exists (canonical (JObj o)). split; [reflexivity|].
  assert (Hthird : ¬ nonEmptyList (o !! "ipAddresses") →
                   ¬ nonEmptyList (o !! "ip_addresses") →
                   ipAddresses (canonical (JObj o)) =
                   listOrEmpty (o !! "ipv4Addresses") ++ listOrEmpty (o !! "ipv6Addresses")
                   ++ listOrEmpty (o !! "ipv4_addresses")
                   ++ listOrEmpty (o !! "ipv6_addresses")).
  { intros H1 H2. cbn [canonical ipAddresses]. unfold resolveIpAddresses.
    rewrite (nonEmptyArray_field_false _ _ H1), (nonEmptyArray_field_false _ _ H2).
    cbv zeta. now rewrite !arrayOrEmpty_field. }
  repeat split.
  - intros H1. cbn [canonical ipAddresses]. unfold resolveIpAddresses.
    rewrite (proj2 (nonEmptyArray_field o "ipAddresses") H1).
    destruct H1 as (x & l & E). unfold field. rewrite E. reflexivity.
  - intros H1 H2. cbn [canonical ipAddresses]. unfold resolveIpAddresses.
    rewrite (nonEmptyArray_field_false _ _ H1).
    rewrite (proj2 (nonEmptyArray_field o "ip_addresses") H2).
    destruct H2 as (x & l & E). unfold field. rewrite E. reflexivity.
  - exact Hthird.
  - intros E1 E2 E3 E4 E5 E6. rewrite Hthird.
    + rewrite E3, E4, E5, E6. reflexivity.
    + rewrite E1. intros (x & l & H). discriminate H.
    + rewrite E2. intros (x & l & H). discriminate H.
Qed.

Lemma ip_resolution_order_witness :
  ipAddresses (canonical (JObj rawSplitAddresses)) = [JStr "10.0.0.1"; JStr "::1"].
Proof.
  destruct (ip_resolution_order rawSplitAddresses) as (rec & Hrec & _ & _ & _ & Hex).
  injection Hrec as <-.
  apply Hex; reflexivity.
Defined.

(** C5. For every raw record, a field absent from it resolves to its
    default in the normalized record: [hostname] to "Unknown", [os.name] to
    "Unknown OS", [type] (read from [endpoint_type]) to "computer",
    [online] to [false], [health.overall] to "unknown", [group.name] to
    "No Group"; and none of these six fields is ever [undefined] or [null]
    in the canonical record. *)
Theorem absent_fields_get_defaults (o : gmap string JsValue) :
  ∃ rec, outcome (normalizeItem (JObj o)) = Returned rec
  ∧ (o !! "hostname" = None → hostname rec = JStr "Unknown")
  ∧ (absentIn o "os" "name" → Os.name (os rec) = JStr "Unknown OS")
  ∧ (o !! "endpoint_type" = None → type rec = JStr "computer")
  ∧ (o !! "online" = None → online rec = JBool false)
  ∧ (absentIn o "health" "overall" → Health.overall (health rec) = JStr "unknown")
  ∧ (absentIn o "group" "name" → Group.name (group rec) = JStr "No Group")
  ∧ nullish (hostname rec) = false
  ∧ nullish (Os.name (os rec)) = false
  ∧ nullish (type rec) = false
  ∧ nullish (online rec) = false
  ∧ nullish (Health.overall (health rec)) = false
  ∧ nullish (Group.name (group rec)) = false.
Proof.
  exists (canonical (JObj o)). split; [reflexivity|].
  cbn [canonical hostname os type online health group
       Os.name Health.overall Group.name].
  repeat split.
  - intros H. unfold field. now rewrite H.
  - intros H. now rewrite (optField_absent _ _ _ H).
  - intros H. unfold field. now rewrite H.
  - intros H. unfold field. now rewrite H.
  - intros H. now rewrite (optField_absent _ _ _ H).
  - intros H. now rewrite (optField_absent _ _ _ H).
  - now apply truthy_not_nullish, jsOr_not_nullish.
  - now apply truthy_not_nullish, jsOr_not_nullish.
  - now apply truthy_not_nullish, jsOr_not_nullish.
  - unfold jsOr. destruct (truthy (field (JObj o) "online")) eqn:E;
      [now apply truthy_not_nullish | reflexivity].
  - now apply truthy_not_nullish, jsOr_not_nullish.
  - now apply truthy_not_nullish, jsOr_not_nullish.
Qed.

Lemma absent_fields_get_defaults_witness :
  let rec := canonical (JObj rawBare) in
  hostname rec = JStr "Unknown" ∧ Os.name (os rec) = JStr "Unknown OS"
  ∧ type rec = JStr "computer" ∧ online rec = JBool false
  ∧ Health.overall (health rec) = JStr "unknown"
  ∧ Group.name (group rec) = JStr "No Group".
Proof.
  destruct (absent_fields_get_defaults rawBare)
    as (rec & Hrec & H1 & H2 & H3 & H4 & H5 & H6 & _).
  injection Hrec as <-. intros rec.
  split; [apply H1; reflexivity|].
  split; [apply H2; reflexivity|].
  split; [apply H3; reflexivity|].
  split; [apply H4; reflexivity|].
  split; [apply H5; reflexivity|].
  apply H6; reflexivity.
Defined.

(** C9. Normalization replaces falsy values that are present, not only
    absent fields: a falsy [hostname] (the empty string) becomes "Unknown",
    a falsy [os.name] "Unknown OS", a falsy [group.name] "No Group", a falsy
    [endpoint_type] "computer", and every falsy [online] ([false], [0],
    [null], [undefined], the empty string) becomes [false]. *)
Theorem falsy_values_get_defaults (o : gmap string JsValue) :
  ∃ rec, outcome (normalizeItem (JObj o)) = Returned rec
  ∧ (o !! "hostname" = Some (JStr "") → hostname rec = JStr "Unknown")
  ∧ (∀ o', o !! "os" = Some (JObj o') → o' !! "name" = Some (JStr "") →
       Os.name (os rec) = JStr "Unknown OS")
  ∧ (∀ o', o !! "group" = Some (JObj o') → o' !! "name" = Some (JStr "") →
       Group.name (group rec) = JStr "No Group")
  ∧ (o !! "endpoint_type" = Some (JStr "") → type rec = JStr "computer")
  ∧ (∀ v, field (JObj o) "online" = v →
       v = JBool false ∨ v = JNum 0 ∨ v = JNull ∨ v = JUndefined ∨ v = JStr "" →
       online rec = JBool false)
  ∧ (∀ v, o !! "online" = Some v → truthy v = false → online rec = JBool false).
Proof.
  exists (canonical (JObj o)). split; [reflexivity|].
  cbn [canonical hostname os type online health group
       Os.name Health.overall Group.name].
  repeat split.
  - intros H. unfold field. now rewrite H.
  - intros o' H H'. now rewrite (optField_present _ _ _ _ _ H H').
  - intros o' H H'. now rewrite (optField_present _ _ _ _ _ H H').
  - intros H. unfold field. now rewrite H.
  - intros v -> Hv. apply jsOr_falsy.
    destruct Hv as [-> | [-> | [-> | [-> | ->]]]]; reflexivity.
  - intros v H Hv. unfold field. rewrite H. now apply jsOr_falsy.
Qed.

Lemma falsy_values_get_defaults_witness :
  let rec := canonical (JObj rawFalsy) in
  hostname rec = JStr "Unknown" ∧ Os.name (os rec) = JStr "Unknown OS"
  ∧ Group.name (group rec) = JStr "No Group" ∧ type rec = JStr "computer"
  ∧ online rec = JBool false.
Proof.
  destruct (falsy_values_get_defaults rawFalsy)
    as (rec & Hrec & H1 & H2 & H3 & H4 & H5 & _).
  injection Hrec as <-. intros rec.
  split; [apply H1; reflexivity|].
  split; [apply (H2 (list_to_map [("name", JStr "")])); reflexivity|].
  split; [apply (H3 (list_to_map [("name", JStr "")])); reflexivity|].
  split; [apply H4; reflexivity|].
  apply (H5 (JNum 0)); [reflexivity | right; left; reflexivity].
Defined.

(** C8. Calling the normalization function twice on the same raw record
    yields identical canonical records. *)
Theorem normalization_repeatable (o : gmap string JsValue) :
  ∃ rec, outcome (normalizeTwice (JObj o)) = Returned (rec, rec).
Proof. exists (canonical (JObj o)). reflexivity. Qed.

(** The canonical record is a function of the fields listed in [readKeys]
    and of nothing else. *)
Lemma canonical_reads_only (o1 o2 : gmap string JsValue) :
  Forall (λ k, o1 !! k = o2 !! k) readKeys →
  canonical (JObj o1) = canonical (JObj o2).
Proof.
  intros H. unfold readKeys in H.
  repeat match goal with
         | H : Forall _ (_ :: _) |- _ =>
             let E := fresh "E" in
             apply Forall_cons in H; destruct H as [E H]
         end.
  unfold canonical, resolveIpAddresses, field.
  repeat match goal with E : o1 !! _ = o2 !! _ |- _ => rewrite E; clear E end.
  reflexivity.
Qed.

(** Whatever the item, two calls end the same way. *)
Lemma normalizeTwice_agree (item : JsValue) (first second : SophosEndpoint) :
  outcome (normalizeTwice item) = Returned (first, second) → first = second.
Proof.
  unfold normalizeTwice, normalizeItem.
  destruct (nullish item); simpl; intros H; [discriminate H|].
  now injection H as <- <-.
Qed.

(** ** Strict equality *)

Lemma strictEq_sym (a b : JsValue) : strictEq a b = strictEq b a.
Proof.
  destruct a, b; simpl; try reflexivity.
  - now destruct b, b0.
  - apply eq_true_iff_eq. rewrite !Qeq_bool_iff. split; intros H; now symmetry.
  - apply String.eqb_sym.
Qed.

Lemma strictEq_trans (a b c : JsValue) :
  strictEq a b = true → strictEq b c = true → strictEq a c = true.
Proof.
  destruct a, b; simpl; try discriminate; destruct c; simpl; try discriminate;
    try reflexivity.
  - destruct b, b0, b1; simpl; congruence.
  - rewrite !Qeq_bool_iff. intros H1 H2. now rewrite H1.
  - rewrite !String.eqb_eq. congruence.
Qed.

Lemma strictEq_string (v : JsValue) (s : string) :
  strictEq v (JStr s) = true ↔ v = JStr s.
Proof.
  destruct v; simpl; try (split; [discriminate | intros H; discriminate H]).
  rewrite String.eqb_eq. split; [now intros -> | now intros [= ->]].
Qed.

(** ** Deduplication ([uniqueEndpoints]) *)

Lemma find_existsb {A : Type} (p : A → bool) (l : list A) :
  find p l = None ↔ existsb p l = false.
Proof.
  induction l as [|x l IH]; simpl; [tauto|].
  destruct (p x); simpl; [split; discriminate | exact IH].
Qed.

Lemma sameIds_keep (seen acc : list SophosEndpoint) (x : SophosEndpoint) :
  sameIds seen acc → sameIds (seen ++ [x]) (acc ++ [x]).
Proof. intros H y. rewrite !existsb_app. now rewrite (H y). Qed.

Lemma sameIds_drop (seen acc : list SophosEndpoint) (x : SophosEndpoint) :
  sameIds seen acc →
  existsb (λ e, strictEq (id e) (id x)) acc = true →
  sameIds (seen ++ [x]) acc.
Proof.
  intros H Hx y. rewrite existsb_app, (H y). simpl. rewrite orb_false_r.
  destruct (existsb (λ e, strictEq (id e) (id y)) acc) eqn:Ey; [reflexivity|].
  simpl. destruct (strictEq (id x) (id y)) eqn:Exy; [|reflexivity].
  apply existsb_exists in Hx as (a & Ha & Hax).
  assert (existsb (λ e, strictEq (id e) (id y)) acc = true) as Hc.
  { apply existsb_exists. exists a. split; [exact Ha|].
    exact (strictEq_trans _ _ _ Hax Exy). }
  congruence.
Qed.

(** Only primitives are [===] to something, and primitives convert. *)
Lemma strictEq_convertible (a b : JsValue) :
  strictEq a b = true → convertible b = true.
Proof. destruct a, b; simpl; try discriminate; reflexivity. Qed.

Lemma existsb_convertible_id (acc : list SophosEndpoint) (x : SophosEndpoint) :
  existsb (λ e, strictEq (id e) (id x)) acc = true → convertible (id x) = true.
Proof.
  intros H. apply existsb_exists in H as (a & _ & Ha).
  exact (strictEq_convertible _ _ Ha).
Qed.

Lemma dedupStep_found (acc : list SophosEndpoint) (x : SophosEndpoint) :
  existsb (λ e, strictEq (id e) (id x)) acc = true →
  convertible (hostname x) = true →
  dedupStep acc x = MkJs [Console LWarn (duplicateWarning x)] (Returned acc).
Proof.
  intros H Hh. unfold dedupStep, toStringOf.
  rewrite (existsb_convertible_id _ _ H), Hh.
  destruct (find (λ e, strictEq (id e) (id x)) acc) eqn:Ef; [reflexivity|].
  apply find_existsb in Ef. congruence.
Qed.

Lemma dedupStep_unwritable (acc : list SophosEndpoint) (x : SophosEndpoint) :
  existsb (λ e, strictEq (id e) (id x)) acc = true →
  convertible (hostname x) = false →
  dedupStep acc x = MkJs [] (Threw (TypeErrorAt (NotConvertible (hostname x)))).
Proof.
  intros H Hh. unfold dedupStep, toStringOf.
  rewrite (existsb_convertible_id _ _ H), Hh.
  destruct (find (λ e, strictEq (id e) (id x)) acc) eqn:Ef; [reflexivity|].
  apply find_existsb in Ef. congruence.
Qed.

Lemma dedupStep_fresh (acc : list SophosEndpoint) (x : SophosEndpoint) :
  existsb (λ e, strictEq (id e) (id x)) acc = false →
  dedupStep acc x = MkJs [] (Returned (acc ++ [x])).
Proof.
  intros H. apply find_existsb in H. unfold dedupStep. now rewrite H.
Qed.

Lemma reduce_dedupStep (l seen acc : list SophosEndpoint) :
  sameIds seen acc →
  forallb (λ e, convertible (hostname e)) (duplicatesAfter seen l) = true →
  outcome (reduceJs dedupStep l acc) = Returned (acc ++ keepFirstAfter seen l)
  ∧ warnings (trace (reduceJs dedupStep l acc))
    = map duplicateWarning (duplicatesAfter seen l).
Proof.
  revert seen acc. induction l as [|x l IH]; intros seen acc Hs Hw.
  - simpl. now rewrite app_nil_r.
  - cbn [reduceJs keepFirstAfter duplicatesAfter] in *.
    rewrite (Hs x) in *.
    destruct (existsb (λ e, strictEq (id e) (id x)) acc) eqn:He.
    + cbn [forallb] in Hw. apply andb_true_iff in Hw as [Hx Hw].
      rewrite (dedupStep_found _ _ He Hx).
      destruct (IH (seen ++ [x]) acc (sameIds_drop _ _ _ Hs He) Hw) as [IHo IHw].
      unfold mbind, js_bind. cbn [outcome trace]. split; [exact IHo|].
      change (warnings (Console LWarn (duplicateWarning x)
                          :: trace (reduceJs dedupStep l acc))
              = duplicateWarning x
                  :: map duplicateWarning (duplicatesAfter (seen ++ [x]) l)).
      rewrite <- IHw. reflexivity.
    + rewrite (dedupStep_fresh _ _ He).
      destruct (IH (seen ++ [x]) (acc ++ [x]) (sameIds_keep _ _ _ Hs) Hw)
        as [IHo IHw].
      unfold mbind, js_bind. cbn [outcome trace app]. split; [|exact IHw].
      rewrite IHo. now rewrite <- app_assoc.
Qed.

Lemma reduce_dedupStep_throws (l seen acc : list SophosEndpoint) :
  sameIds seen acc →
  forallb (λ e, convertible (hostname e)) (duplicatesAfter seen l) = false →
  ∃ t, outcome (reduceJs dedupStep l acc) = Threw t.
Proof.
  revert seen acc. induction l as [|x l IH]; intros seen acc Hs Hw.
  - discriminate Hw.
  - cbn [reduceJs keepFirstAfter duplicatesAfter] in *.
    rewrite (Hs x) in *.
    destruct (existsb (λ e, strictEq (id e) (id x)) acc) eqn:He.
    + cbn [forallb] in Hw.
      destruct (convertible (hostname x)) eqn:Hx.
      * cbn [andb] in Hw.
        destruct (IH (seen ++ [x]) acc (sameIds_drop _ _ _ Hs He) Hw) as [t Ht].
        exists t. rewrite (dedupStep_found _ _ He Hx).
        unfold mbind, js_bind. cbn [outcome trace]. exact Ht.
      * eexists. rewrite (dedupStep_unwritable _ _ He Hx). reflexivity.
    + destruct (IH (seen ++ [x]) (acc ++ [x]) (sameIds_keep _ _ _ Hs) Hw) as [t Ht].
      exists t. rewrite (dedupStep_fresh _ _ He).
      unfold mbind, js_bind. cbn [outcome trace]. exact Ht.
Qed.

Lemma uniqueEndpoints_spec (l : list SophosEndpoint) :
  warningsWritable l = true →
  outcome (uniqueEndpoints l) = Returned (keepFirstById l)
  ∧ warnings (trace (uniqueEndpoints l)) = map duplicateWarning (duplicatesById l).
Proof.
  intros Hw. unfold uniqueEndpoints.
  destruct (reduce_dedupStep l [] []) as [H1 H2];
    [intros x; reflexivity | exact Hw |].
  split; [exact H1 | exact H2].
Qed.

Lemma uniqueEndpoints_throws (l : list SophosEndpoint) :
  warningsWritable l = false → ∃ t, outcome (uniqueEndpoints l) = Threw t.
Proof.
  intros Hw. unfold uniqueEndpoints.
  apply (reduce_dedupStep_throws l [] []); [intros x; reflexivity | exact Hw].
Qed.

(** When the reduction returns, it returns the first records by id. *)
Lemma uniqueEndpoints_returned (l kept : list SophosEndpoint) :
  outcome (uniqueEndpoints l) = Returned kept →
  warningsWritable l = true ∧ kept = keepFirstById l.
Proof.
  intros H. destruct (warningsWritable l) eqn:Hw.
  - split; [reflexivity|].
    rewrite (proj1 (uniqueEndpoints_spec l Hw)) in H. now injection H as <-.
  - destruct (uniqueEndpoints_throws l Hw) as [t Ht]. congruence.
Qed.

Lemma keepFirstAfter_sublist (l seen : list SophosEndpoint) :
  sublist (keepFirstAfter seen l) l.
Proof.
  revert seen. induction l as [|x l IH]; intros seen; simpl.
  - constructor.
  - destruct (existsb _ seen); [apply sublist_cons | apply sublist_skip]; apply IH.
Qed.

Lemma existsb_false_elem {A : Type} (p : A → bool) (l : list A) (a : A) :
  existsb p l = false → a ∈ l → p a = false.
Proof.
  intros H Ha. apply list_elem_of_In in Ha.
  destruct (p a) eqn:E; [|reflexivity].
  assert (existsb p l = true) by (apply existsb_exists; eauto). congruence.
Qed.

(** A kept record shares its id with no record passed before it. *)
Lemma keepFirstAfter_fresh (l seen : list SophosEndpoint) (a b : SophosEndpoint) :
  b ∈ keepFirstAfter seen l → a ∈ seen → strictEq (id a) (id b) = false.
Proof.
  revert seen. induction l as [|x l IH]; intros seen Hb Ha; simpl in Hb.
  - now apply elem_of_nil in Hb.
  - destruct (existsb (λ e, strictEq (id e) (id x)) seen) eqn:E.
    + apply (IH (seen ++ [x])); [exact Hb|]. apply elem_of_app. now left.
    + apply elem_of_cons in Hb as [-> | Hb].
      * exact (existsb_false_elem _ _ _ E Ha).
      * apply (IH (seen ++ [x])); [exact Hb|]. apply elem_of_app. now left.
Qed.

Lemma keepFirstAfter_distinct (l seen : list SophosEndpoint) :
  distinctIds (keepFirstAfter seen l).
Proof.
  revert seen. induction l as [|x l IH]; intros seen; simpl.
  - intros i j a b _ H. now rewrite lookup_nil in H.
  - destruct (existsb (λ e, strictEq (id e) (id x)) seen) eqn:E; [apply IH|].
    intros i j a b Hij Hi Hj.
    destruct j as [|j]; [lia|]. rewrite lookup_cons in Hj.
    destruct i as [|i].
    + simpl in Hi. injection Hi as <-.
      apply (keepFirstAfter_fresh l (seen ++ [x])).
      * eapply list_elem_of_lookup_2. exact Hj.
      * apply elem_of_app. right. now apply list_elem_of_singleton.
    + rewrite lookup_cons in Hi.
      apply (IH (seen ++ [x]) i j a b); [lia | exact Hi | exact Hj].
Qed.

(** A dropped record has the id of a record kept before it: the records
    kept answer every id passed so far. *)
Lemma keepFirstAfter_covers (l : list SophosEndpoint) (x : SophosEndpoint) :
  x ∈ l → ∃ k, k ∈ keepFirstById l ∧ (k = x ∨ strictEq (id k) (id x) = true).
Proof.
  intros Hx.
  unfold keepFirstById.
  assert (G : ∀ l seen acc, sameIds seen acc → x ∈ l →
              ∃ k, k ∈ acc ++ keepFirstAfter seen l
                   ∧ (k = x ∨ strictEq (id k) (id x) = true)).
  { clear. intros l. induction l as [|y l IH]; intros seen acc Hs Hx.
    - now apply elem_of_nil in Hx.
    - simpl. apply elem_of_cons in Hx as [<- | Hx].
      + destruct (existsb (λ e, strictEq (id e) (id x)) seen) eqn:E.
        * rewrite (Hs x) in E. apply existsb_exists in E as (k & Hk & Hkx).
          exists k. split; [|now right].
          apply elem_of_app. left. now apply list_elem_of_In.
        * exists x. split; [|now left].
          apply elem_of_app. right. apply elem_of_cons. now left.
      + destruct (existsb (λ e, strictEq (id e) (id y)) seen) eqn:E.
        * rewrite (Hs y) in E.
          exact (IH (seen ++ [y]) acc (sameIds_drop _ _ _ Hs E) Hx).
        * destruct (IH (seen ++ [y]) (acc ++ [y]) (sameIds_keep _ _ _ Hs) Hx)
            as (k & Hk & Hkx).
          exists k. split; [|exact Hkx].
          now rewrite <- app_assoc in Hk. }
  destruct (G l [] [] (λ _, eq_refl) Hx) as (k & Hk & Hkx).
  exists k. split; [exact Hk | exact Hkx].
Qed.

(** ** [fetchData] *)

Lemma warnings_app (t1 t2 : list Event) :
  warnings (t1 ++ t2) = warnings t1 ++ warnings t2.
Proof. apply omap_app. Qed.

Lemma warnings_log (args : list LogArg) (t : list Event) :
  warnings (Console LLog args :: t) = warnings t.
Proof. reflexivity. Qed.

Lemma warnings_error (args : list LogArg) (t : list Event) :
  warnings (Console LError args :: t) = warnings t.
Proof. reflexivity. Qed.

Lemma toStringOf_ok (v : JsValue) :
  convertible v = true → toStringOf v = MkJs [] (Returned tt).
Proof. intros H. unfold toStringOf. now rewrite H. Qed.

Lemma toStringOf_bad (v : JsValue) :
  convertible v = false →
  toStringOf v = MkJs [] (Threw (TypeErrorAt (NotConvertible v))).
Proof. intros H. unfold toStringOf. now rewrite H. Qed.

Lemma countBy_trace (key : SophosEndpoint → JsValue) (l : list SophosEndpoint) :
  trace (countBy key l) = [].
Proof.
  unfold countBy. induction l as [|e l IH]; [reflexivity|].
  cbn [reduceJs].
  destruct (convertible (key e)) eqn:E.
  - rewrite (toStringOf_ok _ E). unfold mbind, js_bind.
    cbn [outcome trace app]. exact IH.
  - rewrite (toStringOf_bad _ E). reflexivity.
Qed.

Lemma countBy_outcome (key : SophosEndpoint → JsValue) (l : list SophosEndpoint) :
  (forallb (λ e, convertible (key e)) l = true → outcome (countBy key l) = Returned tt)
  ∧ (forallb (λ e, convertible (key e)) l = false →
     ∃ t, outcome (countBy key l) = Threw t).
Proof.
  unfold countBy. induction l as [|e l [IHok IHbad]]; cbn [forallb reduceJs].
  - split; [reflexivity | discriminate].
  - destruct (convertible (key e)) eqn:E; cbn [andb].
    + rewrite (toStringOf_ok _ E). unfold mbind, js_bind.
      cbn [outcome trace]. split; assumption.
    + rewrite (toStringOf_bad _ E). split; [discriminate|].
      intros _. eexists. reflexivity.
Qed.

Lemma countBy_ok (key : SophosEndpoint → JsValue) (l : list SophosEndpoint) :
  forallb (λ e, convertible (key e)) l = true → countBy key l = MkJs [] (Returned tt).
Proof.
  intros H. pose proof (countBy_trace key l) as Ht.
  pose proof (proj1 (countBy_outcome key l) H) as Ho.
  destruct (countBy key l) as [tr o]. cbn in *. now subst.
Qed.

Lemma countBy_bad (key : SophosEndpoint → JsValue) (l : list SophosEndpoint) :
  forallb (λ e, convertible (key e)) l = false →
  ∃ t, countBy key l = MkJs [] (Threw t).
Proof.
  intros H. pose proof (countBy_trace key l) as Ht.
  destruct (proj2 (countBy_outcome key l) H) as [t Ho]. exists t.
  destruct (countBy key l) as [tr o]. cbn in *. now subst.
Qed.

Lemma warnings_nil : warnings [] = [].
Proof. reflexivity. Qed.

(** Dropping from a trace what is not a warning. *)
Ltac count_warnings :=
  repeat (rewrite warnings_app || rewrite warnings_log || rewrite warnings_error
          || rewrite warnings_nil || rewrite app_nil_r).

(** *** Running a handler *)

Lemma prepend_nil {A : Type} (r : UiRun A) : prepend [] r = r.
Proof. now destruct r. Qed.

Lemma prepend_prepend {A : Type} (t1 t2 : list Event) (r : UiRun A) :
  prepend t1 (prepend t2 r) = prepend (t1 ++ t2) r.
Proof. unfold prepend. cbn. now rewrite app_assoc. Qed.

(** A setter, then the rest. *)
Lemma run_setter {B : Type} (m : Ui unit) (f : unit → Ui B)
    (st st' : DashboardState) :
  runUi m st = MkUiRun [] st' (Returned tt) →
  runUi (m ≫= f) st = runUi (f tt) st'.
Proof.
  intros H. unfold mbind, ui_bind. cbn [runUi]. rewrite H. cbn.
  apply prepend_nil.
Qed.

(** A computation that returns, then the rest. *)
Lemma run_lift_returned {A B : Type} (m : Js A) (f : A → Ui B)
    (st : DashboardState) (a : A) :
  outcome m = Returned a →
  runUi (liftJs m ≫= f) st = prepend (trace m) (runUi (f a) st).
Proof. intros H. unfold mbind, ui_bind, liftJs. cbn. now rewrite H. Qed.

(** A computation that throws ends the handler's body. *)
Lemma run_lift_threw {A B : Type} (m : Js A) (f : A → Ui B)
    (st : DashboardState) (t : Thrown) :
  outcome m = Threw t →
  runUi (liftJs m ≫= f) st = MkUiRun (trace m) st (Threw t).
Proof. intros H. unfold mbind, ui_bind, liftJs. cbn. now rewrite H. Qed.

(** The state and the events [fetchData] leaves, from the run of its
    [try] block. *)
Lemma fetchData_of_body (env : Env) (st : DashboardState) :
  fetchData env st =
  match ui_outcome (runUi (fetchDataBody env) st) with
  | Returned _ =>
      (ui_trace (runUi (fetchDataBody env) st) ++ [],
       ui_state (runUi (setLoading false) (ui_state (runUi (fetchDataBody env) st))))
  | Threw err =>
      ((ui_trace (runUi (fetchDataBody env) st)
          ++ [Console LError [AStr "Error fetching data:"; AThrown err]]) ++ [],
       ui_state (runUi (setLoading false)
                   (ui_state (runUi (setError (Some "Failed to fetch endpoint data"))
                                (ui_state (runUi (fetchDataBody env) st))))))
  end.
Proof.
  unfold fetchData, fetchDataHandler, tryCatchFinally. cbn [runUi].
  cbv zeta.
  destruct (ui_outcome (runUi (fetchDataBody env) st)) as [[]|err]; reflexivity.
Qed.

(** The [try] block up to the result of [getSophosEndpointData]. *)
Lemma fetchDataBody_run (env : Env) (st : DashboardState) (r : FetchResult) :
  outcome (getSophosEndpointData env) = Returned r →
  runUi (fetchDataBody env) st =
  prepend (Console LLog [AStr "Loading endpoint data..."]
             :: trace (getSophosEndpointData env))
    (runUi (if success r then onSuccess env r
            else liftJs (throw (ErrorObject (errorOrDefault (error r)))))
       {| st_endpoints := st_endpoints st; st_stats := st_stats st;
          st_loading := true; st_error := None;
          st_lastUpdated := st_lastUpdated st;
          st_dataSource := st_dataSource st |}).
Proof.
  intros Hr. unfold fetchDataBody.
  rewrite (run_setter (setLoading true) _ st _ eq_refl).
  rewrite (run_setter (setError None) _ _ _ eq_refl).
  rewrite (run_lift_returned (console _ _) _ _ tt eq_refl).
  rewrite (run_lift_returned _ _ _ r Hr).
  rewrite prepend_prepend. reflexivity.
Qed.

(** The three frequency tables and [setStats]. *)
Lemma tables_run (l : list SophosEndpoint) (st : DashboardState) :
  ∃ tail,
    runUi (liftJs (countBy (λ endpoint, Os.name (os endpoint)) l);;
           liftJs (countBy type l);;
           liftJs (countBy (λ endpoint, Group.name (group endpoint)) l);;
           setStats (Some (computeStats l))) st
    = MkUiRun [] (if tablesCountable l
                  then {| st_endpoints := st_endpoints st;
                          st_stats := Some (computeStats l);
                          st_loading := st_loading st; st_error := st_error st;
                          st_lastUpdated := st_lastUpdated st;
                          st_dataSource := st_dataSource st |}
                  else st) tail
    ∧ (tablesCountable l = true → tail = Returned tt)
    ∧ (tablesCountable l = false → ∃ t, tail = Threw t).
Proof.
  unfold tablesCountable.
  destruct (forallb (λ e, convertible (Os.name (os e))) l) eqn:E1.
  2:{ destruct (countBy_bad _ _ E1) as [t Ht]. exists (Threw t).
      rewrite (run_lift_threw _ _ _ t) by (now rewrite Ht). rewrite Ht.
      split; [reflexivity|]. split; [discriminate | intros _; now exists t]. }
  rewrite (run_lift_returned _ _ _ tt) by (now rewrite (countBy_ok _ _ E1)).
  rewrite (countBy_ok _ _ E1). cbn [trace]. rewrite prepend_nil.
  destruct (forallb (λ e, convertible (type e)) l) eqn:E2.
  2:{ destruct (countBy_bad _ _ E2) as [t Ht]. exists (Threw t).
      rewrite (run_lift_threw _ _ _ t) by (now rewrite Ht). rewrite Ht.
      split; [reflexivity|]. split; [discriminate | intros _; now exists t]. }
  rewrite (run_lift_returned _ _ _ tt) by (now rewrite (countBy_ok _ _ E2)).
  rewrite (countBy_ok _ _ E2). cbn [trace]. rewrite prepend_nil.
  destruct (forallb (λ e, convertible (Group.name (group e))) l) eqn:E3.
  2:{ destruct (countBy_bad _ _ E3) as [t Ht]. exists (Threw t).
      rewrite (run_lift_threw _ _ _ t) by (now rewrite Ht). rewrite Ht.
      split; [reflexivity|]. split; [discriminate | intros _; now exists t]. }
  rewrite (run_lift_returned _ _ _ tt) by (now rewrite (countBy_ok _ _ E3)).
  rewrite (countBy_ok _ _ E3). cbn [trace]. rewrite prepend_nil.
  exists (Returned tt). split; [reflexivity|].
  split; [reflexivity | discriminate].
Qed.

(** A cycle whose duplicate warnings can be written stores the
    deduplicated list; the statistics follow when the frequency tables can
    be built, the error when they cannot. *)
Lemma fetchData_stored (env : Env) (st : DashboardState) (r : FetchResult) :
  outcome (getSophosEndpointData env) = Returned r →
  success r = true →
  warningsWritable (data r) = true →
  snd (fetchData env st) =
    {| st_endpoints := keepFirstById (data r);
       st_stats := if tablesCountable (data r)
                   then Some (computeStats (data r)) else st_stats st;
       st_loading := false;
       st_error := if tablesCountable (data r)
                   then None else Some "Failed to fetch endpoint data";
       st_lastUpdated := Some (now env);
       st_dataSource := source r |}
  ∧ warnings (fst (fetchData env st)) =
      warnings (trace (getSophosEndpointData env))
      ++ map duplicateWarning (duplicatesById (data r)).
Proof.
  intros Hr Hs Hww.
  destruct (uniqueEndpoints_spec (data r) Hww) as [Hu Hw].
  rewrite fetchData_of_body, (fetchDataBody_run env st r Hr), Hs.
  unfold onSuccess.
  rewrite (run_lift_returned _ _ _ _ Hu).
  rewrite (run_setter (setEndpoints _) _ _ _ eq_refl).
  rewrite (run_setter (setLastUpdated _) _ _ _ eq_refl).
  rewrite (run_setter (setDataSource _) _ _ _ eq_refl).
  rewrite (run_lift_returned (console _ _) _ _ tt eq_refl).
  rewrite (run_lift_returned (console _ _) _ _ tt eq_refl).
  cbv zeta.
  match goal with
  | |- context [runUi ?m ?s] =>
      lazymatch m with
      | (liftJs (countBy _ _) ≫= _) =>
          destruct (tables_run (data r) s) as (tail & -> & Hok & Hbad)
      end
  end.
  destruct (tablesCountable (data r)) eqn:Htc.
  - rewrite (Hok eq_refl).
    cbn [prepend ui_outcome ui_trace ui_state runUi setLoading fst snd
         st_endpoints st_stats st_loading st_error st_lastUpdated st_dataSource
         console emit trace].
    split; [reflexivity|]. count_warnings. now rewrite Hw.
  - destruct (Hbad eq_refl) as [t ->].
    cbn [prepend ui_outcome ui_trace ui_state runUi setLoading setError fst snd
         st_endpoints st_stats st_loading st_error st_lastUpdated st_dataSource
         console emit trace].
    split; [reflexivity|]. count_warnings. now rewrite Hw.
Qed.

(** A cycle that cannot write a duplicate warning stops before any list is
    stored. *)
Lemma fetchData_unwritable (env : Env) (st : DashboardState) (r : FetchResult) :
  outcome (getSophosEndpointData env) = Returned r →
  success r = true →
  warningsWritable (data r) = false →
  snd (fetchData env st) =
    {| st_endpoints := st_endpoints st; st_stats := st_stats st;
       st_loading := false;
       st_error := Some "Failed to fetch endpoint data";
       st_lastUpdated := st_lastUpdated st;
       st_dataSource := st_dataSource st |}.
Proof.
  intros Hr Hs Hww.
  destruct (uniqueEndpoints_throws (data r) Hww) as [t Ht].
  rewrite fetchData_of_body, (fetchDataBody_run env st r Hr), Hs.
  unfold onSuccess. rewrite (run_lift_threw _ _ _ _ Ht). reflexivity.
Qed.

(** A cycle that runs to its end: its events and the state it leaves. *)
Lemma fetchData_complete (env : Env) (st : DashboardState) (r : FetchResult) :
  outcome (getSophosEndpointData env) = Returned r →
  success r = true →
  warningsWritable (data r) = true →
  tablesCountable (data r) = true →
  fetchData env st =
  (Console LLog [AStr "Loading endpoint data..."]
     :: trace (getSophosEndpointData env)
     ++ trace (uniqueEndpoints (data r))
     ++ [Console LLog
           [AStr "Loaded "; ANum (Z.of_nat (length (keepFirstById (data r))));
            AStr " unique endpoints from ";
            AStr (match source r with api => "api" | mock => "mock" end);
            AStr " (";
            ANum (Z.of_nat (length (data r))
                  - Z.of_nat (length (keepFirstById (data r))));
            AStr " duplicates removed)"];
         Console LLog
           [AStr "Sample endpoint IP data:";
            AVal (JArr (map (λ ep, JArr [hostname ep; JArr (ipAddresses ep)])
                            (take 3 (keepFirstById (data r)))))]],
   {| st_endpoints := keepFirstById (data r);
      st_stats := Some (computeStats (data r));
      st_loading := false; st_error := None;
      st_lastUpdated := Some (now env);
      st_dataSource := source r |}).
Proof.
  intros Hr Hs Hww Htc.
  destruct (uniqueEndpoints_spec (data r) Hww) as [Hu Hw].
  rewrite fetchData_of_body, (fetchDataBody_run env st r Hr), Hs.
  unfold onSuccess.
  rewrite (run_lift_returned _ _ _ _ Hu).
  rewrite (run_setter (setEndpoints _) _ _ _ eq_refl).
  rewrite (run_setter (setLastUpdated _) _ _ _ eq_refl).
  rewrite (run_setter (setDataSource _) _ _ _ eq_refl).
  rewrite (run_lift_returned (console _ _) _ _ tt eq_refl).
  rewrite (run_lift_returned (console _ _) _ _ tt eq_refl).
  cbv zeta.
  match goal with
  | |- context [runUi ?m ?s] =>
      lazymatch m with
      | (liftJs (countBy _ _) ≫= _) =>
          destruct (tables_run (data r) s) as (tail & -> & Hok & _)
      end
  end.
  rewrite Htc, (Hok Htc).
  cbn [prepend ui_outcome ui_trace ui_state runUi setLoading fst snd
       st_endpoints st_stats st_loading st_error st_lastUpdated st_dataSource
       console emit trace].
  f_equal. rewrite !app_nil_r. reflexivity.
Qed.

Lemma fetchData_success (env : Env) (st : DashboardState) (r : FetchResult) :
  outcome (getSophosEndpointData env) = Returned r →
  success r = true →
  warningsWritable (data r) = true →
  tablesCountable (data r) = true →
  snd (fetchData env st) =
    {| st_endpoints := keepFirstById (data r);
       st_stats := Some (computeStats (data r));
       st_loading := false; st_error := None;
       st_lastUpdated := Some (now env);
       st_dataSource := source r |}
  ∧ warnings (fst (fetchData env st)) =
      warnings (trace (getSophosEndpointData env))
      ++ map duplicateWarning (duplicatesById (data r)).
Proof.
  intros Hr Hs Hww Htc.
  destruct (fetchData_stored env st r Hr Hs Hww) as [Hst Hw].
  rewrite Htc in Hst. split; assumption.
Qed.

(** ** What a successful fetch returns *)

Lemma mapJs_normalizeItem_returned (raws : list JsValue) (eps : list SophosEndpoint) :
  outcome (mapJs normalizeItem raws) = Returned eps → eps = map canonical raws.
Proof.
  revert eps. induction raws as [|v raws IH]; intros eps H.
  - simpl in H. now injection H as <-.
  - cbn [mapJs] in H.
    assert (Hv : normalizeItem v =
                 if nullish v
                 then throw (TypeErrorAt (ReadOfNullish v "ipAddresses"))
                 else mret (canonical v)) by reflexivity.
    destruct (nullish v).
    { rewrite (bind_threw _ _ (TypeErrorAt (ReadOfNullish v "ipAddresses"))) in H
        by (now rewrite Hv).
      discriminate H. }
    rewrite (bind_returned _ _ (canonical v)) in H by (now rewrite Hv).
    rewrite Hv in H.
    cbn [outcome] in H.
    destruct (outcome (mapJs normalizeItem raws)) as [eps'|t] eqn:E.
    + rewrite (bind_returned _ _ _ E) in H. cbn in H. injection H as <-.
      simpl. now rewrite (IH eps' eq_refl).
    + rewrite (bind_threw _ _ _ E) in H. discriminate H.
Qed.

Lemma fetchSophosEndpoints_returned (env : Env) (accessToken : JsValue)
    (eps : list SophosEndpoint) :
  outcome (fetchSophosEndpoints env accessToken) = Returned eps →
  ∃ raws, fetch_sophos_endpoints env accessToken = Resolved (JArr raws)
          ∧ eps = map canonical raws.
Proof.
  intros H. unfold fetchSophosEndpoints in H.
  rewrite tryCatch_rethrow in H by reflexivity.
  rewrite (bind_returned (console _ _) _ tt) in H by reflexivity.
  cbn [outcome] in H. unfold invoke in H.
  destruct (fetch_sophos_endpoints env accessToken) as [v|t] eqn:Ef.
  2:{ rewrite (bind_threw _ _ t) in H by reflexivity. discriminate H. }
  rewrite (bind_returned _ _ v) in H by reflexivity. cbn [outcome] in H.
  destruct v as [| | b | q | s | raws | o]; try discriminate H.
  exists raws. split; [reflexivity|].
  apply mapJs_normalizeItem_returned.
  destruct (outcome (debugFirstItem raws)) as [[]|t] eqn:Ed.
  2:{ rewrite (bind_threw _ _ t Ed) in H. discriminate H. }
  rewrite (bind_returned _ _ tt Ed) in H. cbn [outcome] in H.
  destruct (outcome (mapJs normalizeItem raws)) as [eps'|t] eqn:Em.
  2:{ rewrite (bind_threw _ _ t Em) in H. discriminate H. }
  rewrite (bind_returned _ _ eps' Em) in H. cbn [outcome] in H.
  exact H.
Qed.

Lemma getSophosEndpointData_api (env : Env) (r : FetchResult) :
  outcome (getSophosEndpointData env) = Returned r →
  source r = api →
  success r = true
  ∧ ∃ accessToken raws,
      outcome (getSophosAccessToken env) = Returned accessToken
      ∧ fetch_sophos_endpoints env accessToken = Resolved (JArr raws)
      ∧ data r = map canonical raws.
Proof.
  intros Hr Hsrc.
  destruct (forceMockData env) eqn:Hf.
  { rewrite (getSophosEndpointData_forced env Hf) in Hr.
    injection Hr as <-. discriminate Hsrc. }
  destruct (loadSophosCredentials_total env) as [c Hc].
  destruct (truthy c) eqn:Ht.
  2:{ rewrite (getSophosEndpointData_no_credentials env c Hf Hc Ht) in Hr.
      injection Hr as <-. discriminate Hsrc. }
  destruct (getSophosAccessToken_total env) as [tok Ha].
  destruct (truthy tok) eqn:Hn.
  2:{ rewrite (getSophosEndpointData_no_token env c tok Hf Hc Ht Ha Hn) in Hr.
      injection Hr as <-. discriminate Hsrc. }
  destruct (outcome (fetchSophosEndpoints env tok)) as [eps|t] eqn:Hx.
  2:{ rewrite (getSophosEndpointData_fetch_failed env c tok t Hf Hc Ht Ha Hn Hx) in Hr.
      injection Hr as <-. discriminate Hsrc. }
  rewrite (getSophosEndpointData_fetched env c tok eps Hf Hc Ht Ha Hn Hx) in Hr.
  injection Hr as <-. split; [reflexivity|].
  destruct (fetchSophosEndpoints_returned env tok eps Hx) as (raws & Hraws & ->).
  exists tok, raws. repeat split; assumption.
Qed.

(** ** Claims on deduplication and statistics *)

(** C2, as the specification words it, fails: when upstream sends two
    records with the id "42", the [data] field of the result of a
    successful API fetch holds both of them. *)
Lemma api_data_keeps_duplicates :
  ∃ r, outcome (getSophosEndpointData envDuplicates) = Returned r
     ∧ success r = true ∧ source r = api
     ∧ length (data r) = 2%nat
     ∧ ¬ distinctIds (data r).
Proof.
  eexists. split; [vm_compute; reflexivity|].
  repeat split.
  intros H. cbn [data] in H.
  specialize (H 0%nat 1%nat _ _ ltac:(lia) eq_refl eq_refl).
  vm_compute in H. discriminate H.
Qed.

(** C2, amended. For every successful API fetch, the [data] field returned
    by [getSophosEndpointData] holds one normalized record per raw record,
    in upstream order and not deduplicated.  Its caller [fetchData]
    deduplicates it.  When the warning of every dropped record can be
    written (the hostname of the dropped record converts to a string), the
    endpoint list it stores contains at most one record per id, keeps of
    the records sharing an id only the first-encountered one, in order, and
    one warning is logged for each record dropped.  When a warning cannot
    be written the cycle fails before any list is stored: the endpoint list
    stays as it was and the error is set. *)
Theorem dedup_is_done_by_fetchData (env : Env) (st : DashboardState) (r : FetchResult) :
  outcome (getSophosEndpointData env) = Returned r →
  source r = api →
  (∃ accessToken raws,
     fetch_sophos_endpoints env accessToken = Resolved (JArr raws)
     ∧ data r = map canonical raws)
  ∧ (warningsWritable (data r) = true →
     st_endpoints (snd (fetchData env st)) = keepFirstById (data r)
     ∧ distinctIds (st_endpoints (snd (fetchData env st)))
     ∧ sublist (st_endpoints (snd (fetchData env st))) (data r)
     ∧ (∀ x, x ∈ data r →
          ∃ k, k ∈ st_endpoints (snd (fetchData env st))
               ∧ (k = x ∨ strictEq (id k) (id x) = true))
     ∧ warnings (fst (fetchData env st))
       = warnings (trace (getSophosEndpointData env))
         ++ map duplicateWarning (duplicatesById (data r)))
  ∧ (warningsWritable (data r) = false →
     st_endpoints (snd (fetchData env st)) = st_endpoints st
     ∧ st_error (snd (fetchData env st)) = Some "Failed to fetch endpoint data").
Proof.
  intros Hr Hsrc.
  destruct (getSophosEndpointData_api env r Hr Hsrc)
    as (Hs & tok & raws & _ & Hraws & Hdata).
  split; [exists tok, raws; now split|]. split.
  - intros Hww.
    destruct (fetchData_stored env st r Hr Hs Hww) as [Hst Hw].
    rewrite Hst. cbn [st_endpoints].
    split; [reflexivity|].
    split; [apply keepFirstAfter_distinct|].
    split; [apply keepFirstAfter_sublist|].
    split; [apply keepFirstAfter_covers | exact Hw].
  - intros Hww. rewrite (fetchData_unwritable env st r Hr Hs Hww).
    split; reflexivity.
Qed.

Lemma dedup_is_done_by_fetchData_witness :
  st_endpoints (snd (fetchData envDuplicates initialState))
  = keepFirstById (map canonical [raw42a; raw42b]).
Proof.
  apply (proj1 (proj2 (dedup_is_done_by_fetchData envDuplicates initialState
           {| success := true; data := map canonical [raw42a; raw42b];
              source := api; error := None |} eq_refl eq_refl))).
  reflexivity.
Defined.

(** The three counters of [computeStats], on the list it is given. *)
Lemma computeStats_counts (l : list SophosEndpoint) :
  totalEndpoints (computeStats l) = Z.of_nat (length l)
  ∧ onlineEndpoints (computeStats l)
    = Z.of_nat (length (List.filter (λ e, truthy (online e)) l))
  ∧ offlineEndpoints (computeStats l)
    = totalEndpoints (computeStats l) - onlineEndpoints (computeStats l)
  ∧ 0 ≤ offlineEndpoints (computeStats l).
Proof.
  repeat split. cbn [computeStats offlineEndpoints].
  pose proof (List.filter_length_le (λ e, truthy (online e)) l). lia.
Qed.

(** A list without repeated ids is its own deduplication. *)
Lemma keepFirstAfter_id (l seen : list SophosEndpoint) :
  (∀ a b, a ∈ seen → b ∈ l → strictEq (id a) (id b) = false) →
  distinctIds l → keepFirstAfter seen l = l.
Proof.
  revert seen. induction l as [|x l IH]; intros seen Hseen Hd; [reflexivity|].
  simpl.
  assert (existsb (λ e, strictEq (id e) (id x)) seen = false) as ->.
  { destruct (existsb (λ e, strictEq (id e) (id x)) seen) eqn:E; [|reflexivity].
    apply existsb_exists in E as (a & Ha & Hax).
    rewrite (Hseen a x) in Hax; [discriminate Hax | now apply list_elem_of_In |].
    apply elem_of_cons. now left. }
  f_equal. apply IH.
  - intros a b Ha Hb. apply elem_of_app in Ha as [Ha | Ha].
    + apply Hseen; [exact Ha | apply elem_of_cons; now right].
    + apply list_elem_of_singleton in Ha as ->.
      apply list_elem_of_lookup in Hb as [j Hj].
      exact (Hd 0%nat (S j) x b ltac:(lia) eq_refl Hj).
  - intros i j a b Hij Hi Hj.
    exact (Hd (S i) (S j) a b ltac:(lia) Hi Hj).
Qed.

Lemma keepFirstById_distinct (l : list SophosEndpoint) :
  distinctIds l → keepFirstById l = l.
Proof.
  intros Hd. apply keepFirstAfter_id; [|exact Hd].
  intros a b Ha. now apply elem_of_nil in Ha.
Qed.

(** C3. The statistics are computed from [result.data], the list before
    deduplication, not from the deduplicated list the dashboard shows: when
    upstream sends two online records with the id "42", the deduplicated
    list has N = 1 endpoint, M = 1 of them online, and the statistics read
    [totalEndpoints = 2], [onlineEndpoints = 2], [offlineEndpoints = 0]. *)
Theorem stats_count_dropped_duplicates :
  length (st_endpoints (snd (fetchData envDuplicates initialState))) = 1%nat
  ∧ length (List.filter (λ e, truthy (online e))
              (st_endpoints (snd (fetchData envDuplicates initialState)))) = 1%nat
  ∧ st_stats (snd (fetchData envDuplicates initialState))
    = Some {| totalEndpoints := 2; onlineEndpoints := 2; offlineEndpoints := 0;
              healthyEndpoints := 0; warningEndpoints := 0;
              criticalEndpoints := 0 |}.
Proof. vm_compute. repeat split. Qed.

(** On a cycle that runs to its end the statistics count [result.data];
    they are those of the list shown exactly when no id repeats in it. *)
Lemma fetchData_stats (env : Env) (st : DashboardState) (r : FetchResult) :
  outcome (getSophosEndpointData env) = Returned r →
  success r = true →
  warningsWritable (data r) = true →
  tablesCountable (data r) = true →
  st_stats (snd (fetchData env st)) = Some (computeStats (data r))
  ∧ (distinctIds (data r) →
     st_stats (snd (fetchData env st))
     = Some (computeStats (st_endpoints (snd (fetchData env st))))).
Proof.
  intros Hr Hs Hww Htc.
  destruct (fetchData_success env st r Hr Hs Hww Htc) as [-> _].
  cbn [st_stats st_endpoints]. split; [reflexivity|].
  intros Hd. now rewrite (keepFirstById_distinct _ Hd).
Qed.

(** ** Health buckets *)

Lemma inBucket_false (e : SophosEndpoint) :
  inBucket e = false ↔ outsideBuckets e.
Proof.
  unfold inBucket, outsideBuckets.
  rewrite !orb_false_iff, <- !not_true_iff_false, !strictEq_string. tauto.
Qed.

Lemma healthStep_outside (acc : HealthCounts) (e : SophosEndpoint) :
  outsideBuckets e → healthStep acc e = acc.
Proof.
  intros H. apply inBucket_false in H. unfold inBucket in H.
  rewrite !orb_false_iff in H. destruct H as [[H1 H2] H3].
  unfold healthStep. cbv zeta. now rewrite H1, H2, H3.
Qed.

Lemma healthStep_sum (acc : HealthCounts) (e : SophosEndpoint) :
  healthy (healthStep acc e) + warning (healthStep acc e) + critical (healthStep acc e)
  = healthy acc + warning acc + critical acc + (if inBucket e then 1 else 0).
Proof.
  unfold healthStep, inBucket. cbv zeta.
  destruct (strictEq (Health.overall (health e)) (JStr "good")); simpl; [lia|].
  destruct (strictEq (Health.overall (health e)) (JStr "warning")); simpl; [lia|].
  destruct (strictEq (Health.overall (health e)) (JStr "critical")); simpl; lia.
Qed.

Lemma healthCounts_sum (l : list SophosEndpoint) (acc : HealthCounts) :
  let hc := fold_left healthStep l acc in
  healthy hc + warning hc + critical hc
  = healthy acc + warning acc + critical acc
    + Z.of_nat (length (List.filter inBucket l)).
Proof.
  revert acc. induction l as [|e l IH]; intros acc; cbn [fold_left List.filter].
  - simpl. lia.
  - cbv zeta in IH. rewrite IH, healthStep_sum.
    destruct (inBucket e); cbn [length]; lia.
Qed.

Lemma filter_length_lt {A : Type} (p : A → bool) (l : list A) :
  (length (List.filter p l) < length l)%nat ↔ ∃ x, x ∈ l ∧ p x = false.
Proof.
  induction l as [|x l IH]; simpl.
  - split; [lia | intros (x & Hx & _); now apply elem_of_nil in Hx].
  - pose proof (List.filter_length_le p l) as Hle.
    destruct (p x) eqn:E; simpl.
    + split.
      * intros H. apply Nat.succ_lt_mono in H. apply IH in H as (y & Hy & Hpy).
        exists y. split; [apply elem_of_cons; now right | exact Hpy].
      * intros (y & Hy & Hpy). apply elem_of_cons in Hy as [-> | Hy]; [congruence|].
        apply -> Nat.succ_lt_mono. apply IH. eauto.
    + split; [|lia]. intros _. exists x. split; [apply elem_of_cons; now left | exact E].
Qed.

(** C10. For every endpoint list, an endpoint whose [health.overall] is
    none of "good", "warning", "critical" (so "unknown" too) is counted in
    none of the three health buckets; hence healthy + warning + critical is
    at most the total, and strictly less exactly when some endpoint of the
    list has its [health.overall] outside the three values. *)
Theorem health_buckets_bounded (l : list SophosEndpoint) :
  (∀ acc e, outsideBuckets e → healthStep acc e = acc)
  ∧ healthyEndpoints (computeStats l) + warningEndpoints (computeStats l)
    + criticalEndpoints (computeStats l) ≤ totalEndpoints (computeStats l)
  ∧ (healthyEndpoints (computeStats l) + warningEndpoints (computeStats l)
     + criticalEndpoints (computeStats l) < totalEndpoints (computeStats l)
     ↔ ∃ e, e ∈ l ∧ outsideBuckets e).
Proof.
  split; [exact healthStep_outside|].
  cbn [computeStats healthyEndpoints warningEndpoints criticalEndpoints totalEndpoints].
  unfold healthCounts.
  pose proof (healthCounts_sum l {| healthy := 0; warning := 0; critical := 0 |}) as Hs.
  cbv zeta in Hs. cbn [healthy warning critical] in Hs. rewrite Hs.
  pose proof (List.filter_length_le inBucket l) as Hle.
  split; [lia|].
  split.
  - intros H.
    assert (length (List.filter inBucket l) < length l)%nat as Hlt by lia.
    apply filter_length_lt in Hlt as (e & He & Hb).
    exists e. split; [exact He | now apply inBucket_false].
  - intros (e & He & Ho).
    assert (length (List.filter inBucket l) < length l)%nat as Hlt.
    { apply filter_length_lt. exists e. split; [exact He | now apply inBucket_false]. }
    lia.
Qed.

Lemma health_buckets_bounded_witness :
  healthyEndpoints (computeStats [canonical (JObj rawBare)])
  + warningEndpoints (computeStats [canonical (JObj rawBare)])
  + criticalEndpoints (computeStats [canonical (JObj rawBare)])
  < totalEndpoints (computeStats [canonical (JObj rawBare)]).
Proof.
  apply (proj2 (proj2 (health_buckets_bounded [canonical (JObj rawBare)]))).
  exists (canonical (JObj rawBare)). split.
  - apply elem_of_cons. left. reflexivity.
  - repeat split; discriminate.
Defined.

(** * Further properties of the code *)

(** ** Commands called through the bridge *)

Lemma invokedCommands_app (t1 t2 : list Event) :
  invokedCommands (t1 ++ t2) = invokedCommands t1 ++ invokedCommands t2.
Proof. apply omap_app. Qed.

Lemma bind_commands {A B : Type} (m : Js A) (f : A → Js B) :
  invokedCommands (trace (m ≫= f)) =
  invokedCommands (trace m)
  ++ match outcome m with
     | Returned a => invokedCommands (trace (f a))
     | Threw _ => []
     end.
Proof.
  destruct (outcome m) as [a|t] eqn:E.
  - rewrite (bind_returned _ _ _ E). cbn [trace]. apply invokedCommands_app.
  - rewrite (bind_threw _ _ _ E). cbn [trace]. now rewrite app_nil_r.
Qed.

Lemma tryCatch_commands {A : Type} (m : Js A) (h : Thrown → Js A) :
  (∀ t, invokedCommands (trace (h t)) = []) →
  invokedCommands (trace (tryCatch m h)) = invokedCommands (trace m).
Proof.
  intros Hh. destruct (outcome m) as [a|t] eqn:E.
  - now rewrite (tryCatch_returned _ _ _ E).
  - rewrite (tryCatch_threw _ _ _ E). cbn [trace].
    now rewrite invokedCommands_app, Hh, app_nil_r.
Qed.

Lemma mapJs_normalizeItem_trace (raws : list JsValue) :
  trace (mapJs normalizeItem raws) = [].
Proof.
  induction raws as [|v raws IH]; [reflexivity|].
  cbn [mapJs].
  assert (Hv : normalizeItem v =
               if nullish v
               then throw (TypeErrorAt (ReadOfNullish v "ipAddresses"))
               else mret (canonical v)) by reflexivity.
  destruct (nullish v).
  - rewrite (bind_threw _ _ (TypeErrorAt (ReadOfNullish v "ipAddresses")))
      by (now rewrite Hv).
    now rewrite Hv.
  - rewrite (bind_returned _ _ (canonical v)) by (now rewrite Hv).
    rewrite Hv. cbn [trace mret js_ret app].
    destruct (outcome (mapJs normalizeItem raws)) as [eps|t] eqn:E.
    + rewrite (bind_returned _ _ _ E). cbn [trace mret js_ret].
      now rewrite IH.
    + rewrite (bind_threw _ _ _ E). cbn [trace]. exact IH.
Qed.

Lemma mapJs_normalizeItem_ok (raws : list JsValue) :
  forallb (λ v, negb (nullish v)) raws = true →
  outcome (mapJs normalizeItem raws) = Returned (map canonical raws).
Proof.
  induction raws as [|v raws IH]; intros H; [reflexivity|].
  cbn [forallb] in H. apply andb_true_iff in H as [Hv Hr].
  apply negb_true_iff in Hv.
  cbn [mapJs].
  rewrite (bind_returned _ _ (canonical v))
    by (unfold normalizeItem; now rewrite Hv).
  cbn [outcome]. rewrite (bind_returned _ _ _ (IH Hr)). reflexivity.
Qed.

Lemma mapJs_normalizeItem_bad (raws : list JsValue) :
  forallb (λ v, negb (nullish v)) raws = false →
  ∃ t, outcome (mapJs normalizeItem raws) = Threw t.
Proof.
  induction raws as [|v raws IH]; intros H; [discriminate H|].
  cbn [forallb] in H. cbn [mapJs].
  destruct (nullish v) eqn:Hv.
  - exists (TypeErrorAt (ReadOfNullish v "ipAddresses")).
    rewrite (bind_threw _ _ (TypeErrorAt (ReadOfNullish v "ipAddresses")))
      by (unfold normalizeItem; now rewrite Hv).
    reflexivity.
  - simpl in H. destruct (IH H) as [t Ht]. exists t.
    rewrite (bind_returned _ _ (canonical v))
      by (unfold normalizeItem; now rewrite Hv).
    cbn [outcome]. now rewrite (bind_threw _ _ _ Ht).
Qed.

Lemma debugFirstItem_trace (raws : list JsValue) : trace (debugFirstItem raws) = [].
Proof. destruct raws as [|v raws]; [reflexivity|]. simpl. now destruct (nullish v). Qed.

Lemma debugFirstItem_ok (raws : list JsValue) :
  forallb (λ v, negb (nullish v)) raws = true →
  outcome (debugFirstItem raws) = Returned tt.
Proof.
  destruct raws as [|v raws]; [reflexivity|]. simpl.
  destruct (nullish v); [discriminate | reflexivity].
Qed.

(** The body of [fetchSophosEndpoints] once the payload is an array. *)
Lemma inventory_body_outcome (raws : list JsValue) :
  (forallb (λ v, negb (nullish v)) raws = true →
   outcome (debugFirstItem raws;; endpoints ← mapJs normalizeItem raws; mret endpoints)
   = Returned (map canonical raws))
  ∧ (forallb (λ v, negb (nullish v)) raws = false →
     ∃ t, outcome (debugFirstItem raws;; endpoints ← mapJs normalizeItem raws;
                   mret endpoints) = Threw t).
Proof.
  split; intros E.
  - rewrite (bind_returned _ _ tt (debugFirstItem_ok _ E)). cbn [outcome].
    rewrite (bind_returned _ _ _ (mapJs_normalizeItem_ok _ E)). reflexivity.
  - destruct (outcome (debugFirstItem raws)) as [[]|t] eqn:Ed.
    + destruct (mapJs_normalizeItem_bad _ E) as [t Ht]. exists t.
      rewrite (bind_returned _ _ tt Ed). cbn [outcome].
      now rewrite (bind_threw _ _ _ Ht).
    + exists t. now rewrite (bind_threw _ _ _ Ed).
Qed.

Lemma fetchSophosEndpoints_outcome (env : Env) (accessToken : JsValue) :
  (∀ raws, fetch_sophos_endpoints env accessToken = Resolved (JArr raws) →
     wellFormedInventory (fetch_sophos_endpoints env accessToken) = true →
     outcome (fetchSophosEndpoints env accessToken) = Returned (map canonical raws))
  ∧ (wellFormedInventory (fetch_sophos_endpoints env accessToken) = false →
     ∃ t, outcome (fetchSophosEndpoints env accessToken) = Threw t)
  ∧ (∀ t, fetch_sophos_endpoints env accessToken = Rejected t →
     outcome (fetchSophosEndpoints env accessToken) = Threw t).
Proof.
  unfold fetchSophosEndpoints.
  rewrite tryCatch_rethrow by reflexivity.
  rewrite (bind_returned (console _ _) _ tt) by reflexivity.
  cbn [outcome]. unfold invoke.
  destruct (fetch_sophos_endpoints env accessToken) as [v|t0] eqn:Ef.
  - rewrite (bind_returned _ _ v) by reflexivity. cbn [outcome].
    split; [|split].
    + intros raws [= ->] Hw. cbn [wellFormedInventory] in Hw.
      exact (proj1 (inventory_body_outcome raws) Hw).
    + intros Hw. destruct v as [| | b | q | s | raws | o];
        try (eexists; reflexivity).
      cbn [wellFormedInventory] in Hw.
      exact (proj2 (inventory_body_outcome raws) Hw).
    + intros t H. discriminate H.
  - rewrite (bind_threw _ _ t0) by reflexivity. cbn [outcome].
    split; [|split].
    + intros raws H. discriminate H.
    + intros _. now exists t0.
    + now intros t [= ->].
Qed.

Lemma fetchSophosEndpoints_commands (env : Env) (accessToken : JsValue) :
  invokedCommands (trace (fetchSophosEndpoints env accessToken))
  = ["fetch_sophos_endpoints"].
Proof.
  unfold fetchSophosEndpoints.
  rewrite tryCatch_commands by (intros t; reflexivity).
  rewrite bind_commands. cbn [outcome console emit trace].
  rewrite bind_commands. unfold invoke at 1.
  rewrite bind_commands. cbn [outcome emit trace].
  unfold invoke.
  destruct (fetch_sophos_endpoints env accessToken) as [v|t].
  - rewrite (bind_returned (emit _) _ tt) by reflexivity. cbn [outcome trace mret js_ret].
    destruct v as [| | b | q | s | raws | o]; try reflexivity.
    rewrite bind_commands, debugFirstItem_trace.
    destruct (outcome (debugFirstItem raws)) as [[]|t]; [|reflexivity].
    rewrite bind_commands, mapJs_normalizeItem_trace.
    destruct (outcome (mapJs normalizeItem raws)); reflexivity.
  - rewrite (bind_returned (emit _) _ tt) by reflexivity. reflexivity.
Qed.

Lemma loadSophosCredentials_found (env : Env) :
  ∃ c, outcome (loadSophosCredentials env) = Returned c
       ∧ truthy c = credentialsFound env.
Proof.
  rewrite loadSophosCredentials_eq. unfold credentialsFound.
  destruct (load_sophos_credentials env); eexists; split; reflexivity.
Qed.

Lemma getSophosAccessToken_value (env : Env) :
  outcome (getSophosAccessToken env) = Returned (tokenValue env).
Proof.
  rewrite getSophosAccessToken_eq. unfold tokenValue.
  destruct (get_sophos_access_token env); reflexivity.
Qed.

Lemma getSophosAccessToken_commands (env : Env) :
  invokedCommands (trace (getSophosAccessToken env)) = ["get_sophos_access_token"].
Proof.
  rewrite getSophosAccessToken_eq.
  destruct (get_sophos_access_token env); reflexivity.
Qed.

Lemma getSophosEndpointData_commands (env : Env) :
  invokedCommands (trace (getSophosEndpointData env)) =
  if forceMockData env then []
  else if negb (credentialsFound env) then ["load_sophos_credentials"]
  else if negb (tokenObtained env)
       then ["load_sophos_credentials"; "get_sophos_access_token"]
       else ["load_sophos_credentials"; "get_sophos_access_token";
             "fetch_sophos_endpoints"].
Proof.
  unfold getSophosEndpointData.
  destruct (forceMockData env); [reflexivity|].
  rewrite tryCatch_commands by (intros t; reflexivity).
  rewrite bind_commands. cbn [outcome console emit trace].
  rewrite bind_commands, invokedCommands_loadSophosCredentials.
  destruct (loadSophosCredentials_found env) as (c & Hc & Hfound).
  rewrite Hc, Hfound.
  destruct (credentialsFound env); [|reflexivity].
  cbn [negb]. rewrite bind_commands, getSophosAccessToken_commands.
  rewrite getSophosAccessToken_value. fold (tokenObtained env).
  destruct (tokenObtained env); [|reflexivity].
  cbn [negb]. rewrite bind_commands. cbn [outcome console emit trace].
  rewrite bind_commands, fetchSophosEndpoints_commands.
  destruct (outcome (fetchSophosEndpoints env (tokenValue env))); reflexivity.
Qed.

(** X1. One call of [getSophosEndpointData] calls the Tauri commands in the
    order credentials, token, inventory, each at most once, and stops at
    the first step that fails: nothing with the force-mock flag, only the
    credential command when no credentials are found, no inventory call
    without a token. *)
Theorem commands_follow_the_chain (env : Env) :
  invokedCommands (trace (getSophosEndpointData env)) =
  if forceMockData env then []
  else if negb (credentialsFound env) then ["load_sophos_credentials"]
  else if negb (tokenObtained env)
       then ["load_sophos_credentials"; "get_sophos_access_token"]
       else ["load_sophos_credentials"; "get_sophos_access_token";
             "fetch_sophos_endpoints"].
Proof. exact (getSophosEndpointData_commands env). Qed.

(** ** The result object of [getSophosEndpointData] *)

Lemma getSophosEndpointData_outcome (env : Env) :
  outcome (getSophosEndpointData env) =
  Returned
    (if forceMockData env then mockResult true None
     else if negb (credentialsFound env) then mockResult true None
     else if negb (tokenObtained env)
          then mockResult false
                 (Some "Failed to obtain access token from Sophos Central")
          else match outcome (fetchSophosEndpoints env (tokenValue env)) with
               | Returned eps =>
                   {| success := true; data := eps; source := api; error := None |}
               | Threw t => mockResult false (Some (fallbackMessage env t))
               end).
Proof.
  destruct (forceMockData env) eqn:Hf.
  { now rewrite (getSophosEndpointData_forced env Hf). }
  destruct (loadSophosCredentials_found env) as (c & Hc & Hfound).
  pose proof (getSophosAccessToken_value env) as Ha.
  destruct (credentialsFound env) eqn:Hcf; cbn [negb].
  2:{ now rewrite (getSophosEndpointData_no_credentials env c Hf Hc Hfound). }
  destruct (tokenObtained env) eqn:Hto; cbn [negb].
  2:{ exact (getSophosEndpointData_no_token env c _ Hf Hc Hfound Ha Hto). }
  destruct (outcome (fetchSophosEndpoints env (tokenValue env))) as [eps|t] eqn:Hx.
  - exact (getSophosEndpointData_fetched env c _ eps Hf Hc Hfound Ha Hto Hx).
  - exact (getSophosEndpointData_fetch_failed env c _ t Hf Hc Hfound Ha Hto Hx).
Qed.

(** X2. Whatever the environment, the result object is coherent: [error] is
    absent exactly when [success] is true, a failure always carries the
    mock source, the mock source always carries the mock dataset, and the
    api source always carries one canonical record per raw record of the
    inventory payload. *)
Theorem result_is_coherent (env : Env) (r : FetchResult) :
  outcome (getSophosEndpointData env) = Returned r →
  (success r = true ↔ error r = None)
  ∧ (success r = false → source r = mock)
  ∧ (source r = mock → data r = mockEndpoints)
  ∧ (source r = api →
     ∃ raws, fetch_sophos_endpoints env (tokenValue env) = Resolved (JArr raws)
             ∧ data r = map canonical raws
             ∧ length (data r) = length raws).
Proof.
  rewrite getSophosEndpointData_outcome. intros [= <-].
  destruct (forceMockData env);
    [repeat split; try reflexivity; discriminate|].
  destruct (credentialsFound env); cbn [negb];
    [|repeat split; try reflexivity; discriminate].
  destruct (tokenObtained env); cbn [negb];
    [|repeat split; try reflexivity; discriminate].
  destruct (outcome (fetchSophosEndpoints env (tokenValue env))) as [eps|t] eqn:Hx;
    [|repeat split; try reflexivity; discriminate].
  cbn [success error source data].
  repeat split; try reflexivity; try discriminate.
  intros _.
  destruct (fetchSophosEndpoints_returned env _ eps Hx) as (raws & Hraws & ->).
  exists raws. repeat split; [exact Hraws | apply length_map].
Qed.

Lemma result_is_coherent_witness :
  ∃ raws, fetch_sophos_endpoints envDuplicates (tokenValue envDuplicates)
          = Resolved (JArr raws)
          ∧ map canonical [raw42a; raw42b] = map canonical raws
          ∧ length (map canonical [raw42a; raw42b]) = length raws.
Proof.
  apply (proj2 (proj2 (proj2
           (result_is_coherent envDuplicates
              {| success := true; data := map canonical [raw42a; raw42b];
                 source := api; error := None |} eq_refl)))).
  reflexivity.
Defined.

(** X3. When the inventory call is rejected, the text of the rejection
    reaches the result only if the rejection is an [Error]: a rejection with
    any other value, as the backend's error strings are, leaves the fixed
    text "Unknown error occurred while fetching from Sophos API". *)
Theorem rejection_text_is_dropped (env : Env) (t : Thrown) :
  forceMockData env = false →
  credentialsFound env = true →
  tokenObtained env = true →
  fetch_sophos_endpoints env (tokenValue env) = Rejected t →
  outcome (getSophosEndpointData env) =
  Returned (mockResult false
    (Some match t with
          | Rejection _ => "Unknown error occurred while fetching from Sophos API"
          | ErrorObject m => m
          | TypeErrorAt site => typeErrorMessage env site
          end)).
Proof.
  intros Hf Hc Ht Hr. rewrite getSophosEndpointData_outcome, Hf, Hc, Ht. cbn [negb].
  rewrite (proj2 (proj2 (fetchSophosEndpoints_outcome env (tokenValue env))) t Hr).
  now destruct t.
Qed.

Lemma rejection_text_is_dropped_witness :
  outcome (getSophosEndpointData envFetchRejected) =
  Returned (mockResult false
              (Some "Unknown error occurred while fetching from Sophos API")).
Proof.
  apply (rejection_text_is_dropped envFetchRejected
           (Rejection (JStr "429 Too Many Requests"))); reflexivity.
Defined.

(** X4. With credentials in place, every way of not getting a token (the
    command rejected for whatever reason, or resolved to [null] or to the
    empty string) gives the same result: the mock dataset, [success =
    false] and the message "Failed to obtain access token from Sophos
    Central"; the inventory command is not called. *)
Theorem token_failures_look_alike (env : Env) :
  forceMockData env = false →
  credentialsFound env = true →
  tokenObtained env = false →
  outcome (getSophosEndpointData env) =
    Returned (mockResult false
                (Some "Failed to obtain access token from Sophos Central"))
  ∧ "fetch_sophos_endpoints" ∉ invokedCommands (trace (getSophosEndpointData env)).
Proof.
  intros Hf Hc Ht. split.
  - now rewrite getSophosEndpointData_outcome, Hf, Hc, Ht.
  - rewrite getSophosEndpointData_commands, Hf, Hc, Ht. cbn [negb].
    intros H. repeat (apply elem_of_cons in H as [H | H]; [discriminate H|]).
    now apply elem_of_nil in H.
Qed.

Lemma token_failures_look_alike_witness :
  outcome (getSophosEndpointData envNoToken) =
    Returned (mockResult false
                (Some "Failed to obtain access token from Sophos Central"))
  ∧ "fetch_sophos_endpoints" ∉ invokedCommands (trace (getSophosEndpointData envNoToken)).
Proof. apply (token_failures_look_alike envNoToken); reflexivity. Defined.

(** X5. With credentials and token in place, the fetch succeeds exactly
    when the inventory payload is an array without [null] items, and then
    [data] holds the canonical record of every raw record, in order, none
    dropped; one [null] item, or a payload that is not an array, turns the
    whole cycle into the mock fallback. *)
Theorem one_bad_item_fails_the_fetch (env : Env) (r : FetchResult) :
  forceMockData env = false →
  credentialsFound env = true →
  tokenObtained env = true →
  outcome (getSophosEndpointData env) = Returned r →
  (success r = true
   ↔ wellFormedInventory (fetch_sophos_endpoints env (tokenValue env)) = true)
  ∧ (∀ raws, fetch_sophos_endpoints env (tokenValue env) = Resolved (JArr raws) →
       forallb (λ v, negb (nullish v)) raws = true →
       r = {| success := true; data := map canonical raws;
              source := api; error := None |})
  ∧ (wellFormedInventory (fetch_sophos_endpoints env (tokenValue env)) = false →
     success r = false ∧ source r = mock ∧ data r = mockEndpoints).
Proof.
  intros Hf Hc Ht. rewrite getSophosEndpointData_outcome, Hf, Hc, Ht. cbn [negb].
  intros [= <-].
  destruct (fetchSophosEndpoints_outcome env (tokenValue env)) as (Hok & Hbad & _).
  destruct (wellFormedInventory (fetch_sophos_endpoints env (tokenValue env))) eqn:Hw.
  - assert (∃ raws, fetch_sophos_endpoints env (tokenValue env) = Resolved (JArr raws))
      as [raws Hraws].
    { unfold wellFormedInventory in Hw.
      destruct (fetch_sophos_endpoints env (tokenValue env)) as [v|]; [|discriminate].
      destruct v; try discriminate. eexists; reflexivity. }
    rewrite (Hok raws Hraws eq_refl).
    split; [split; reflexivity|]. split; [|discriminate].
    intros raws' Hraws' _. rewrite Hraws in Hraws'. now injection Hraws' as <-.
  - destruct (Hbad eq_refl) as [t Hthrew]. rewrite Hthrew.
    split; [split; discriminate|]. split; [|intros _; repeat split].
    intros raws Hraws Hall. rewrite Hraws in Hw. cbn in Hw. congruence.
Qed.

Lemma one_bad_item_fails_the_fetch_witness :
  success (mockResult false (Some "TypeError")) = false
  ∧ source (mockResult false (Some "TypeError")) = mock
  ∧ data (mockResult false (Some "TypeError")) = mockEndpoints.
Proof.
  apply (proj2 (proj2 (one_bad_item_fails_the_fetch envNullRecord
                         (mockResult false (Some "TypeError"))
                         eq_refl eq_refl eq_refl eq_refl))).
  reflexivity.
Defined.

(** ** What [fetchData] leaves behind *)

Lemma fetchData_failure (env : Env) (st : DashboardState) (r : FetchResult) :
  outcome (getSophosEndpointData env) = Returned r →
  success r = false →
  fetchData env st =
  (Console LLog [AStr "Loading endpoint data..."]
     :: trace (getSophosEndpointData env)
     ++ [Console LError [AStr "Error fetching data:";
                         AThrown (ErrorObject (errorOrDefault (error r)))]],
   {| st_endpoints := st_endpoints st; st_stats := st_stats st;
      st_loading := false;
      st_error := Some "Failed to fetch endpoint data";
      st_lastUpdated := st_lastUpdated st;
      st_dataSource := st_dataSource st |}).
Proof.
  intros Hr Hs.
  rewrite fetchData_of_body, (fetchDataBody_run env st r Hr), Hs.
  cbn [prepend ui_outcome ui_trace ui_state runUi liftJs setLoading setError throw
       trace outcome
       st_endpoints st_stats st_loading st_error st_lastUpdated st_dataSource].
  now rewrite !app_nil_r.
Qed.

(** X6. After a failed cycle the fallback data is not shown: when
    [getSophosEndpointData] answers with [success = false], [fetchData]
    throws the mock dataset of the result away, keeps the endpoint list,
    the statistics, the data source and the time of the last update as
    they were, and sets the error to "Failed to fetch endpoint data"
    whatever message the result carried. *)
Theorem failed_cycle_keeps_old_view (env : Env) (st : DashboardState) (r : FetchResult) :
  outcome (getSophosEndpointData env) = Returned r →
  success r = false →
  snd (fetchData env st) =
  {| st_endpoints := st_endpoints st; st_stats := st_stats st;
     st_loading := false;
     st_error := Some "Failed to fetch endpoint data";
     st_lastUpdated := st_lastUpdated st;
     st_dataSource := st_dataSource st |}.
Proof. intros Hr Hs. now rewrite (fetchData_failure env st r Hr Hs). Qed.

Lemma failed_cycle_keeps_old_view_witness :
  snd (fetchData envNoToken initialState) =
  {| st_endpoints := []; st_stats := None; st_loading := false;
     st_error := Some "Failed to fetch endpoint data";
     st_lastUpdated := None; st_dataSource := mock |}.
Proof.
  apply (failed_cycle_keeps_old_view envNoToken initialState
           (mockResult false
              (Some "Failed to obtain access token from Sophos Central")));
    reflexivity.
Defined.

(** X7. Every cycle of [fetchData] ends with [loading = false].  It leaves
    no error exactly when [getSophosEndpointData] reported success and the
    success branch ran to its end: every duplicate warning could be written
    and the three frequency tables built.  When it leaves an error, the
    statistics are the ones it started with. *)
Theorem cycle_always_settles (env : Env) (st : DashboardState) :
  st_loading (snd (fetchData env st)) = false
  ∧ (st_error (snd (fetchData env st)) = None
     ↔ ∃ r, outcome (getSophosEndpointData env) = Returned r ∧ success r = true
            ∧ warningsWritable (data r) = true ∧ tablesCountable (data r) = true)
  ∧ (st_error (snd (fetchData env st)) ≠ None →
     st_stats (snd (fetchData env st)) = st_stats st).
Proof.
  assert (∃ r, outcome (getSophosEndpointData env) = Returned r) as [r Hr]
    by (eexists; apply getSophosEndpointData_outcome).
  destruct (success r) eqn:Hs.
  2:{ rewrite (fetchData_failure env st r Hr Hs).
      cbn [snd st_loading st_error st_stats].
      split; [reflexivity|]. split; [|reflexivity].
      split; [discriminate|]. intros (r' & Hr' & Hs' & _). congruence. }
  destruct (warningsWritable (data r)) eqn:Hww.
  2:{ rewrite (fetchData_unwritable env st r Hr Hs Hww).
      cbn [st_loading st_error st_stats].
      split; [reflexivity|]. split; [|reflexivity].
      split; [discriminate|]. intros (r' & Hr' & _ & Hww' & _). congruence. }
  rewrite (proj1 (fetchData_stored env st r Hr Hs Hww)).
  cbn [st_loading st_error st_stats].
  split; [reflexivity|].
  destruct (tablesCountable (data r)) eqn:Htc.
  - split; [|congruence]. split; [intros _; now exists r | reflexivity].
  - split; [|reflexivity].
    split; [discriminate|]. intros (r' & Hr' & _ & _ & Htc'). congruence.
Qed.

(** ** Deduplication, further *)

Lemma keepFirstAfter_length (l seen : list SophosEndpoint) :
  (length (keepFirstAfter seen l) + length (duplicatesAfter seen l))%nat = length l.
Proof.
  revert seen. induction l as [|x l IH]; intros seen; [reflexivity|].
  cbn [keepFirstAfter duplicatesAfter].
  destruct (existsb _ seen); cbn [length]; rewrite <- (IH (seen ++ [x])); lia.
Qed.

(** X8. On a cycle that runs to its end the total of the statistics is the
    number of endpoints shown plus the number of duplicate warnings logged:
    every raw record is either shown or reported as a duplicate, and the
    total counts both. *)
Theorem total_is_shown_plus_dropped (env : Env) (st : DashboardState) (r : FetchResult) :
  outcome (getSophosEndpointData env) = Returned r →
  success r = true →
  warningsWritable (data r) = true →
  tablesCountable (data r) = true →
  ∃ stats, st_stats (snd (fetchData env st)) = Some stats
    ∧ totalEndpoints stats
      = Z.of_nat (length (st_endpoints (snd (fetchData env st))))
        + Z.of_nat (length (warnings (trace (uniqueEndpoints (data r))))).
Proof.
  intros Hr Hs Hww Htc.
  destruct (fetchData_success env st r Hr Hs Hww Htc) as [-> _].
  cbn [st_stats st_endpoints]. exists (computeStats (data r)).
  split; [reflexivity|].
  rewrite (proj2 (uniqueEndpoints_spec (data r) Hww)), length_map.
  cbn [computeStats totalEndpoints]. unfold keepFirstById, duplicatesById.
  rewrite <- (keepFirstAfter_length (data r) []). lia.
Qed.

Lemma total_is_shown_plus_dropped_witness :
  ∃ stats, st_stats (snd (fetchData envTriplicate initialState)) = Some stats
    ∧ totalEndpoints stats
      = Z.of_nat (length (st_endpoints (snd (fetchData envTriplicate initialState))))
        + Z.of_nat (length (warnings (trace (uniqueEndpoints
                      (map canonical [raw42a; rawOther; raw42b; raw42a]))))).
Proof.
  apply (total_is_shown_plus_dropped envTriplicate initialState
           {| success := true;
              data := map canonical [raw42a; rawOther; raw42b; raw42a];
              source := api; error := None |}); reflexivity.
Defined.

(** X9. Deduplicating twice changes nothing: run on its own output,
    [uniqueEndpoints] returns that list as it is and logs no warning. *)
Theorem dedup_is_idempotent (l kept : list SophosEndpoint) :
  outcome (uniqueEndpoints l) = Returned kept →
  outcome (uniqueEndpoints kept) = Returned kept
  ∧ warnings (trace (uniqueEndpoints kept)) = [].
Proof.
  intros H. apply uniqueEndpoints_returned in H as [_ ->].
  assert (Hid : keepFirstById (keepFirstById l) = keepFirstById l).
  { apply keepFirstById_distinct. apply keepFirstAfter_distinct. }
  assert (Hnone : duplicatesById (keepFirstById l) = []).
  { pose proof (keepFirstAfter_length (keepFirstById l) []) as Hlen.
    fold (keepFirstById (keepFirstById l)) in Hlen.
    fold (duplicatesById (keepFirstById l)) in Hlen. rewrite Hid in Hlen.
    destruct (duplicatesById (keepFirstById l)); [reflexivity | cbn in Hlen; lia]. }
  assert (Hww : warningsWritable (keepFirstById l) = true).
  { unfold warningsWritable. now rewrite Hnone. }
  destruct (uniqueEndpoints_spec (keepFirstById l) Hww) as [Ho Hw].
  rewrite Ho, Hw, Hid, Hnone. split; reflexivity.
Qed.

Lemma dedup_is_idempotent_witness :
  outcome (uniqueEndpoints (map canonical [raw42a; rawOther]))
  = Returned (map canonical [raw42a; rawOther])
  ∧ warnings (trace (uniqueEndpoints (map canonical [raw42a; rawOther]))) = [].
Proof.
  apply (dedup_is_idempotent (map canonical [raw42a; rawOther; raw42b; raw42a])).
  reflexivity.
Defined.

Lemma existsb_ext_in {A : Type} (p q : A → bool) (l : list A) :
  (∀ a, p a = q a) → existsb p l = existsb q l.
Proof. intros H. induction l as [|x l IH]; simpl; [reflexivity|]. now rewrite H, IH. Qed.

Lemma same_id_tests (v : JsValue) (x e : SophosEndpoint) :
  strictEq v (id x) = true → strictEq (id e) (id x) = strictEq v (id e).
Proof.
  intros Hx. destruct (strictEq v (id e)) eqn:He.
  - rewrite strictEq_sym in He. exact (strictEq_trans _ _ _ He Hx).
  - destruct (strictEq (id e) (id x)) eqn:Hex; [|reflexivity].
    rewrite strictEq_sym in Hex.
    rewrite (strictEq_trans _ _ _ Hx Hex) in He. discriminate He.
Qed.

Lemma keepFirstAfter_per_id (v : JsValue) (l seen : list SophosEndpoint) :
  List.filter (λ e, strictEq v (id e)) (keepFirstAfter seen l)
  = if existsb (λ e, strictEq v (id e)) seen then []
    else take 1 (List.filter (λ e, strictEq v (id e)) l).
Proof.
  revert seen. induction l as [|x l IH]; intros seen.
  - simpl. now destruct (existsb _ seen).
  - cbn [keepFirstAfter List.filter].
    destruct (strictEq v (id x)) eqn:Hx.
    + rewrite (existsb_ext_in (λ e, strictEq (id e) (id x)) (λ e, strictEq v (id e))
                 seen (λ e, same_id_tests v x e Hx)).
      destruct (existsb (λ e, strictEq v (id e)) seen) eqn:Es.
      * rewrite IH, existsb_app, Es. reflexivity.
      * cbn [List.filter]. rewrite Hx, IH, existsb_app, Es. simpl. rewrite Hx.
        reflexivity.
    + assert (List.filter (λ e, strictEq v (id e)) (keepFirstAfter (seen ++ [x]) l)
              = if existsb (λ e, strictEq v (id e)) seen then []
                else take 1 (List.filter (λ e, strictEq v (id e)) l)) as Hrest.
      { rewrite IH, existsb_app. simpl. rewrite Hx. now rewrite !orb_false_r. }
      destruct (existsb (λ e, strictEq (id e) (id x)) seen).
      * exact Hrest.
      * cbn [List.filter]. rewrite Hx. exact Hrest.
Qed.

(** X10. For every id value, the records [uniqueEndpoints] keeps with that
    id are exactly the first record of its input with that id, and none
    when the input has none.  The id may be any value, [undefined]
    included: of the records that have no id only the first survives. *)
Theorem first_record_of_each_id (l kept : list SophosEndpoint) (v : JsValue) :
  outcome (uniqueEndpoints l) = Returned kept →
  List.filter (λ e, strictEq v (id e)) kept
  = take 1 (List.filter (λ e, strictEq v (id e)) l).
Proof.
  intros H. apply uniqueEndpoints_returned in H as [_ ->].
  unfold keepFirstById. now rewrite keepFirstAfter_per_id.
Qed.

Lemma first_record_of_each_id_witness :
  List.filter (λ e, strictEq JUndefined (id e))
    [canonical (object [("hostname", JStr "A")]); canonical rawOther]
  = take 1 (List.filter (λ e, strictEq JUndefined (id e))
              (map canonical [object [("hostname", JStr "A")]; rawOther;
                              object [("hostname", JStr "B")]])).
Proof.
  apply (first_record_of_each_id
           (map canonical [object [("hostname", JStr "A")]; rawOther;
                           object [("hostname", JStr "B")]])).
  reflexivity.
Defined.

Lemma cycle_always_settles_witness :
  st_stats (snd (fetchData envNoToken initialState)) = st_stats initialState.
Proof.
  apply (proj2 (proj2 (cycle_always_settles envNoToken initialState))).
  discriminate.
Defined.

(** X11. Normalization reads fourteen fields of a raw record and nothing
    else: setting or removing any other field (the camel-case [lastSeen],
    a raw [type], ...) leaves the canonical record unchanged. *)
Theorem normalization_ignores_other_fields (o : gmap string JsValue) (k : string)
    (v : JsValue) :
  k ∉ readKeys →
  canonical (JObj (<[k := v]> o)) = canonical (JObj o)
  ∧ canonical (JObj (delete k o)) = canonical (JObj o).
Proof.
  intros Hk. split; apply canonical_reads_only; apply Forall_forall; intros k' Hk'.
  - apply lookup_insert_ne. intros ->. contradiction.
  - apply lookup_delete_ne. intros ->. contradiction.
Qed.

Lemma normalization_ignores_other_fields_witness :
  canonical (JObj (<["lastSeen" := JStr "2020-01-01T00:00:00Z"]> rawPlain))
  = canonical (JObj rawPlain)
  ∧ canonical (JObj (delete "lastSeen" rawPlain)) = canonical (JObj rawPlain).
Proof.
  apply (normalization_ignores_other_fields rawPlain "lastSeen").
  unfold readKeys. intros H.
  repeat (apply elem_of_cons in H as [H | H]; [discriminate H|]).
  now apply elem_of_nil in H.
Defined.

(** X12. In mock mode, forced by the flag or entered for want of
    credentials, a cycle shows the ten sample endpoints as they are (none is
    dropped as a duplicate) with the statistics 10 total, 8 online, 2
    offline, 7 healthy, 2 warning, 1 critical. *)
Theorem mock_mode_dashboard (env : Env) (st : DashboardState) :
  forceMockData env = true ∨ credentialsFound env = false →
  snd (fetchData env st) =
  {| st_endpoints := mockEndpoints;
     st_stats := Some {| totalEndpoints := 10; onlineEndpoints := 8;
                         offlineEndpoints := 2; healthyEndpoints := 7;
                         warningEndpoints := 2; criticalEndpoints := 1 |};
     st_loading := false; st_error := None;
     st_lastUpdated := Some (now env);
     st_dataSource := mock |}.
Proof.
  intros H.
  assert (Hr : outcome (getSophosEndpointData env) = Returned (mockResult true None)).
  { rewrite getSophosEndpointData_outcome.
    destruct (forceMockData env); [reflexivity|].
    destruct H as [H | ->]; [discriminate H | reflexivity]. }
  destruct (fetchData_success env st _ Hr eq_refl eq_refl eq_refl) as [-> _].
  reflexivity.
Qed.

Lemma mock_mode_dashboard_witness :
  st_endpoints (snd (fetchData envNoCredentials initialState)) = mockEndpoints.
Proof.
  rewrite (mock_mode_dashboard envNoCredentials initialState);
    [reflexivity | right; reflexivity].
Defined.

(** ** The other bridge helpers *)

(** X13. [saveSophosCredentials], [clearSophosCache] and
    [getSecretsFilePath] never throw and call their command exactly once.
    The first two return [true] exactly when the backend resolves the call;
    the third returns the resolved value, and the empty string when the
    call is rejected. *)
Theorem bridge_helpers_swallow_errors (backend : Backend) (c : SophosCredentials) :
  outcome (saveSophosCredentials backend c)
    = Returned (resolves (save_sophos_credentials backend (credentialsValue c)))
  ∧ invokedCommands (trace (saveSophosCredentials backend c))
    = ["save_sophos_credentials"]
  ∧ outcome (clearSophosCache backend) = Returned (resolves (clear_cache backend))
  ∧ invokedCommands (trace (clearSophosCache backend)) = ["clear_cache"]
  ∧ outcome (getSecretsFilePath backend)
    = Returned match get_secrets_file_path backend with
               | Resolved path => path
               | Rejected _ => JStr ""
               end
  ∧ invokedCommands (trace (getSecretsFilePath backend)) = ["get_secrets_file_path"].
Proof.
  unfold saveSophosCredentials, clearSophosCache, getSecretsFilePath, invoke.
  destruct (save_sophos_credentials backend (credentialsValue c)),
           (clear_cache backend), (get_secrets_file_path backend);
    repeat split; reflexivity.
Qed.

(** ** [clearCache] *)

(** X14. [clearCache] refreshes the data only after the cache was cleared:
    when the [clear_cache] command is rejected no fetch cycle runs and the
    dashboard state is untouched; when it resolves exactly one [fetchData]
    cycle follows.  Either way it does not throw and leaves [isClearing =
    false]. *)
Theorem clearCache_refreshes_after_clearing (env : Env) (backend : Backend)
    (st : PageState) :
  isClearing (snd (clearCache env backend st)) = false
  ∧ (∀ t, clear_cache backend = Rejected t →
       dashboard (snd (clearCache env backend st)) = dashboard st
       ∧ fst (clearCache env backend st)
         = [Invoke "clear_cache" [];
            Console LError [AStr "Failed to clear cache:"; AThrown t]])
  ∧ (∀ v, clear_cache backend = Resolved v →
       dashboard (snd (clearCache env backend st)) = snd (fetchData env (dashboard st))
       ∧ fst (clearCache env backend st)
         = Invoke "clear_cache" [] :: Console LLog [AStr "Cache cleared successfully"]
             :: fst (fetchData env (dashboard st))).
Proof.
  unfold clearCache, invoke.
  destruct (clear_cache backend) as [v|t].
  - split; [reflexivity|]. split; [intros t H; discriminate H|].
    intros v' _. split; reflexivity.
  - split; [reflexivity|]. split; [|intros v H; discriminate H].
    intros t' [= <-]. split; reflexivity.
Qed.

Lemma clearCache_refreshes_after_clearing_witness :
  dashboard (snd (clearCache envDuplicates backendDown
                    {| dashboard := initialState; isClearing := false |}))
  = initialState.
Proof.
  apply (proj1 (proj2 (clearCache_refreshes_after_clearing envDuplicates backendDown
                         {| dashboard := initialState; isClearing := false |}))
           (Rejection (JStr "cache locked"))).
  reflexivity.
Defined.

(** ** The table filters *)

Lemma includes_empty (s : string) : includes s "" = true.
Proof. destruct s; reflexivity. Qed.

Lemma filterRows_rows {A : Type} (p : A → option bool) (l rows : list A) :
  filterRows p l = Some rows → rows = List.filter (keeps p) l.
Proof.
  revert rows. induction l as [|x l IH]; intros rows H; simpl in H.
  - now injection H as <-.
  - cbn [List.filter]. unfold keeps at 1.
    destruct (p x) as [keep|]; [|discriminate H].
    destruct (filterRows p l) as [rows'|]; [|discriminate H].
    injection H as <-. rewrite (IH rows' eq_refl). now destruct keep.
Qed.

Lemma filterRows_defined {A : Type} (p : A → option bool) (l : list A) :
  Forall (λ x, p x ≠ None) l → filterRows p l = Some (List.filter (keeps p) l).
Proof.
  induction 1 as [|x l Hx Hl IH]; [reflexivity|].
  cbn [filterRows List.filter]. unfold keeps at 1. rewrite IH.
  destruct (p x) as [[]|]; [reflexivity | reflexivity | contradiction].
Qed.

Lemma filterRows_throws {A : Type} (p : A → option bool) (l1 l2 : list A) (x : A) :
  p x = None → filterRows p (l1 ++ x :: l2) = None.
Proof.
  intros Hx. induction l1 as [|y l1 IH]; simpl.
  - now rewrite Hx.
  - destruct (p y); [|reflexivity]. now rewrite IH.
Qed.

Lemma filterRows_all_defined {A : Type} (p : A → option bool) (l rows : list A) :
  filterRows p l = Some rows → Forall (λ x, p x ≠ None) l.
Proof.
  revert rows. induction l as [|x l IH]; intros rows H; [constructor|].
  simpl in H. destruct (p x) as [keep|] eqn:Hx; [|discriminate H].
  destruct (filterRows p l) as [rows'|]; [|discriminate H].
  constructor; [congruence | exact (IH rows' eq_refl)].
Qed.

Lemma filter_ext_Forall {A : Type} (p q : A → bool) (l : list A) :
  Forall (λ x, p x = q x) l → List.filter p l = List.filter q l.
Proof.
  induction 1 as [|x l Hx Hl IH]; [reflexivity|]. simpl. now rewrite Hx, IH.
Qed.

Section TableProperties.

Variable toLowerCase : string → string.

(** With an empty search box, a row whose hostname is a string passes the
    search test at its first operand. *)
Lemma matchesSearch_empty (e : SophosEndpoint) :
  toLowerCase "" = "" →
  matchesSearch toLowerCase e "" ≠ None →
  matchesSearch toLowerCase e "" = Some true.
Proof.
  intros Hlow. unfold matchesSearch, lowerIncludes.
  destruct (hostname e); try (intros H; now contradiction H).
  intros _. now rewrite Hlow, includes_empty.
Qed.

Lemma filteredEndpoints_initial (l : list SophosEndpoint) :
  toLowerCase "" = "" →
  Forall (λ e, ∃ s, hostname e = JStr s) l →
  filteredEndpoints toLowerCase initialFilters l = Some l.
Proof.
  intros Hlow Hl. unfold filteredEndpoints.
  induction Hl as [|e l (s & Hs) Hl IH]; [reflexivity|].
  cbn [filterRows]. rewrite IH.
  unfold matchesFilters, matchesSearch, lowerIncludes. rewrite Hs.
  cbn [initialFilters searchTerm]. now rewrite Hlow, includes_empty.
Qed.

(** X15. With the search box empty and every filter on "all", as after
    start, the table shows every endpoint whose hostname is a string, in
    order. *)
Theorem no_filter_shows_everything (l : list SophosEndpoint) :
  toLowerCase "" = "" →
  Forall (λ e, ∃ s, hostname e = JStr s) l →
  filteredEndpoints toLowerCase initialFilters l = Some l.
Proof. exact (filteredEndpoints_initial l). Qed.

(** X16. Normalization copies a truthy hostname as it is, whatever its
    type, and the table cannot filter a list that holds a record whose
    hostname is not a string: the search test calls [toLowerCase] on it
    first, for every row and every setting of the filters, and throws. *)
Theorem unvalidated_hostname_breaks_table (o : gmap string JsValue) (v : JsValue)
    (f : Filters) (before after : list SophosEndpoint) :
  o !! "hostname" = Some v →
  truthy v = true →
  (∀ s, v ≠ JStr s) →
  hostname (canonical (JObj o)) = v
  ∧ filteredEndpoints toLowerCase f (before ++ canonical (JObj o) :: after) = None.
Proof.
  intros Ho Ht Hns.
  assert (Hh : hostname (canonical (JObj o)) = v).
  { cbn [canonical hostname]. unfold field, jsOr. rewrite Ho. simpl.
    now rewrite Ht. }
  split; [exact Hh|].
  apply filterRows_throws. unfold matchesFilters, matchesSearch, lowerIncludes.
  rewrite Hh. destruct v; try reflexivity. now contradiction (Hns s).
Qed.

Lemma matchesFilters_status (s : StatusFilter) (f : Filters) (e : SophosEndpoint) :
  matchesFilters toLowerCase (setStatusFilter s f) e =
  match matchesFilters toLowerCase (setStatusFilter statusAll f) e with
  | None => None
  | Some shown =>
      Some (shown && match s with
                     | statusAll => true
                     | statusOnline => truthy (online e)
                     | statusOffline => negb (truthy (online e))
                     end)
  end.
Proof.
  unfold matchesFilters, matchesStatus, matchesHealth, matchesOs, matchesType,
         matchesGroup.
  cbn [setStatusFilter searchTerm statusFilter healthFilter osFilter typeFilter
       groupFilter].
  destruct (matchesSearch toLowerCase e (searchTerm f)) as [found|]; [|reflexivity].
  f_equal. rewrite andb_true_r.
  generalize (match s with
              | statusAll => true
              | statusOnline => truthy (online e)
              | statusOffline => negb (truthy (online e))
              end).
  intros b. destruct found, b; cbn [andb]; try reflexivity;
    repeat (rewrite ?andb_false_r, ?andb_true_r; try reflexivity).
Qed.

Lemma filter_filter_and {A : Type} (p q : A → bool) (l : list A) :
  List.filter p (List.filter q l) = List.filter (λ x, q x && p x) l.
Proof.
  induction l as [|x l IH]; [reflexivity|]. simpl.
  destruct (q x); simpl; [destruct (p x)|]; now rewrite IH.
Qed.

Lemma filteredEndpoints_status (s : StatusFilter) (f : Filters)
    (l rows : list SophosEndpoint) :
  filteredEndpoints toLowerCase (setStatusFilter statusAll f) l = Some rows →
  filteredEndpoints toLowerCase (setStatusFilter s f) l
  = Some (List.filter (λ e, match s with
                            | statusAll => true
                            | statusOnline => truthy (online e)
                            | statusOffline => negb (truthy (online e))
                            end) rows).
Proof.
  unfold filteredEndpoints. intros H.
  pose proof (filterRows_all_defined _ _ _ H) as Hdef.
  apply filterRows_rows in H as ->.
  rewrite filterRows_defined.
  - f_equal. rewrite filter_filter_and. apply filter_ext_Forall.
    apply Forall_forall. intros e _. unfold keeps.
    rewrite (matchesFilters_status s f e).
    destruct (matchesFilters toLowerCase (setStatusFilter statusAll f) e) as [[]|];
      try reflexivity.
    cbn [andb]. now destruct s, (truthy (online e)).
  - eapply Forall_impl; [exact Hdef|]. intros e He. cbn beta in He.
    rewrite (matchesFilters_status s f e).
    now destruct (matchesFilters toLowerCase (setStatusFilter statusAll f) e).
Qed.

(** X17. The status filter splits the rows by the truthiness of [online]:
    whatever the other filters, the rows shown under "online" are the rows
    shown under "all" whose [online] is truthy, those under "offline" the
    others, so each row of "all" is in exactly one of the two. *)
Theorem status_filter_splits_rows (f : Filters) (l rows : list SophosEndpoint) :
  filteredEndpoints toLowerCase (setStatusFilter statusAll f) l = Some rows →
  filteredEndpoints toLowerCase (setStatusFilter statusOnline f) l
    = Some (List.filter (λ e, truthy (online e)) rows)
  ∧ filteredEndpoints toLowerCase (setStatusFilter statusOffline f) l
    = Some (List.filter (λ e, negb (truthy (online e))) rows)
  ∧ (length (List.filter (λ e, truthy (online e)) rows)
     + length (List.filter (λ e, negb (truthy (online e))) rows))%nat = length rows.
Proof.
  intros H. split; [|split].
  - exact (filteredEndpoints_status statusOnline f l rows H).
  - exact (filteredEndpoints_status statusOffline f l rows H).
  - apply List.filter_length.
Qed.

(** X18. Under a health filter other than "all" every row shown has
    exactly the chosen health value; an endpoint whose health is none of
    "good", "warning", "critical", which no health counter counts, can
    only be seen with the health filter on "all". *)
Theorem health_filter_hides_uncounted (f : Filters) (l rows : list SophosEndpoint) :
  healthFilter f ≠ healthAll →
  filteredEndpoints toLowerCase f l = Some rows →
  Forall (λ e, Health.overall (health e) = JStr (healthValue (healthFilter f))
               ∧ ¬ outsideBuckets e) rows.
Proof.
  intros Hh H. unfold filteredEndpoints in H. apply filterRows_rows in H as ->.
  apply Forall_forall. intros e He. apply list_elem_of_In in He.
  apply filter_In in He as [_ He]. unfold keeps, matchesFilters in He.
  destruct (matchesSearch toLowerCase e (searchTerm f)) as [found|]; [|discriminate He].
  destruct (found && matchesStatus f e && matchesHealth f e && matchesOs f e
            && matchesType f e && matchesGroup f e) eqn:E; [|discriminate He].
  rewrite !andb_true_iff in E. destruct E as [[[[_ Hm] _] _] _].
  unfold matchesHealth in Hm.
  assert (Hv : Health.overall (health e) = JStr (healthValue (healthFilter f))).
  { destruct (healthFilter f); [contradiction | | |];
      now apply strictEq_string in Hm. }
  split; [exact Hv|]. unfold outsideBuckets. rewrite Hv.
  destruct (healthFilter f); [contradiction | | |]; cbn [healthValue]; tauto.
Qed.

(** X19. The "Clear Search & Filters" button does not clear the group
    filter: after it the table shows exactly the endpoints of the group
    still selected (all of them when no group is selected). *)
Theorem clearing_filters_keeps_group (f : Filters) (l rows : list SophosEndpoint) :
  toLowerCase "" = "" →
  filteredEndpoints toLowerCase (clearSearchAndFilters f) l = Some rows →
  groupFilter (clearSearchAndFilters f) = groupFilter f
  ∧ rows = List.filter (λ e, String.eqb (groupFilter f) "all"
                             || strictEq (Group.name (group e)) (JStr (groupFilter f))) l.
Proof.
  intros Hlow H. split; [reflexivity|].
  unfold filteredEndpoints in H.
  pose proof (filterRows_all_defined _ _ _ H) as Hdef.
  apply filterRows_rows in H as ->.
  apply filter_ext_Forall. eapply Forall_impl; [exact Hdef|].
  intros e He. cbn beta in He. unfold keeps, matchesFilters in *.
  cbn [clearSearchAndFilters searchTerm] in *.
  destruct (matchesSearch toLowerCase e "") as [found|] eqn:Es; [|now contradiction He].
  rewrite (matchesSearch_empty e Hlow) in Es by (rewrite Es; discriminate).
  injection Es as <-.
  unfold matchesStatus, matchesHealth, matchesOs, matchesType, matchesGroup.
  cbn [statusFilter healthFilter osFilter typeFilter groupFilter healthValue].
  cbn. now destruct (_ || _).
Qed.

(** X20. On one list, the Online and Offline cards agree with the status
    filter: with nothing else filtered, the rows shown under "online" are
    as many as [onlineEndpoints], those under "offline" as many as
    [offlineEndpoints]. *)
Theorem status_cards_agree_with_filter (l online_rows offline_rows : list SophosEndpoint) :
  toLowerCase "" = "" →
  filteredEndpoints toLowerCase (setStatusFilter statusOnline initialFilters) l
    = Some online_rows →
  filteredEndpoints toLowerCase (setStatusFilter statusOffline initialFilters) l
    = Some offline_rows →
  Z.of_nat (length online_rows) = onlineEndpoints (computeStats l)
  ∧ Z.of_nat (length offline_rows) = offlineEndpoints (computeStats l).
Proof.
  intros Hlow Hon Hoff.
  assert (Hall : filteredEndpoints toLowerCase (setStatusFilter statusAll initialFilters) l
                 = Some l).
  { apply (filteredEndpoints_initial l Hlow).
    unfold filteredEndpoints in Hon. apply filterRows_all_defined in Hon.
    eapply Forall_impl; [exact Hon|]. intros e He. cbn beta in He.
    unfold matchesFilters, matchesSearch, lowerIncludes in He.
    destruct (hostname e); try (now contradiction He). eexists; reflexivity. }
  rewrite (filteredEndpoints_status statusOnline _ _ _ Hall) in Hon.
  rewrite (filteredEndpoints_status statusOffline _ _ _ Hall) in Hoff.
  injection Hon as <-. injection Hoff as <-.
  cbn [computeStats onlineEndpoints offlineEndpoints]. split; [reflexivity|].
  pose proof (List.filter_length (λ e, truthy (online e)) l). lia.
Qed.

End TableProperties.

Lemma no_filter_shows_everything_witness :
  filteredEndpoints asciiLower initialFilters mockEndpoints = Some mockEndpoints.
Proof.
  apply (no_filter_shows_everything asciiLower mockEndpoints); [reflexivity|].
  unfold mockEndpoints. repeat constructor; eexists; reflexivity.
Defined.

Lemma unvalidated_hostname_breaks_table_witness :
  hostname (canonical (JObj rawNumericHostname)) = JNum 12345
  ∧ filteredEndpoints asciiLower initialFilters
      ([canonical raw42a] ++ canonical (JObj rawNumericHostname) :: []) = None.
Proof.
  apply (unvalidated_hostname_breaks_table asciiLower rawNumericHostname (JNum 12345)
           initialFilters [canonical raw42a] []); [reflexivity | reflexivity |].
  intros s H. discriminate H.
Defined.

Lemma status_filter_splits_rows_witness :
  filteredEndpoints asciiLower (setStatusFilter statusOffline initialFilters) mockEndpoints
  = Some (List.filter (λ e, negb (truthy (online e))) mockEndpoints).
Proof.
  apply (proj1 (proj2 (status_filter_splits_rows asciiLower initialFilters
                         mockEndpoints mockEndpoints eq_refl))).
Defined.

Lemma health_filter_hides_uncounted_witness :
  Forall (λ e, Health.overall (health e) = JStr "critical" ∧ ¬ outsideBuckets e)
         (List.filter (λ e, strictEq (Health.overall (health e)) (JStr "critical"))
                      mockEndpoints).
Proof.
  apply (health_filter_hides_uncounted asciiLower
           (setHealthFilter healthCritical initialFilters) mockEndpoints);
    [discriminate | reflexivity].
Defined.

Lemma clearing_filters_keeps_group_witness :
  groupFilter (clearSearchAndFilters
                 (setGroupFilter "Sales Team" (setStatusFilter statusOnline initialFilters)))
  = "Sales Team"
  ∧ List.filter (λ e, strictEq (Group.name (group e)) (JStr "Sales Team")) mockEndpoints
    = List.filter (λ e, String.eqb "Sales Team" "all"
                        || strictEq (Group.name (group e)) (JStr "Sales Team"))
                  mockEndpoints.
Proof.
  apply (clearing_filters_keeps_group asciiLower
           (setGroupFilter "Sales Team" (setStatusFilter statusOnline initialFilters))
           mockEndpoints); reflexivity.
Defined.

Lemma status_cards_agree_with_filter_witness :
  Z.of_nat (length (List.filter (λ e, truthy (online e)) mockEndpoints))
  = onlineEndpoints (computeStats mockEndpoints)
  ∧ Z.of_nat (length (List.filter (λ e, negb (truthy (online e))) mockEndpoints))
  = offlineEndpoints (computeStats mockEndpoints).
Proof.
  apply (status_cards_agree_with_filter asciiLower mockEndpoints); reflexivity.
Defined.

(** ** Icons, badges and the address cell *)

Lemma healthStep_icons (acc : HealthCounts) (e : SophosEndpoint) :
  healthy (healthStep acc e) = healthy acc + (if hasIcon greenCheck e then 1 else 0)
  ∧ warning (healthStep acc e) = warning acc + (if hasIcon yellowTriangle e then 1 else 0)
  ∧ critical (healthStep acc e) = critical acc + (if hasIcon redCross e then 1 else 0).
Proof.
  unfold healthStep, hasIcon, getHealthIcon. cbv zeta.
  destruct (strictEq (Health.overall (health e)) (JStr "good"));
    [cbn; lia|].
  destruct (strictEq (Health.overall (health e)) (JStr "warning"));
    [cbn; lia|].
  destruct (strictEq (Health.overall (health e)) (JStr "critical"));
    cbn; lia.
Qed.

Lemma healthCounts_icons (l : list SophosEndpoint) (acc : HealthCounts) :
  healthy (fold_left healthStep l acc)
    = healthy acc + Z.of_nat (length (List.filter (hasIcon greenCheck) l))
  ∧ warning (fold_left healthStep l acc)
    = warning acc + Z.of_nat (length (List.filter (hasIcon yellowTriangle) l))
  ∧ critical (fold_left healthStep l acc)
    = critical acc + Z.of_nat (length (List.filter (hasIcon redCross) l)).
Proof.
  revert acc. induction l as [|e l IH]; intros acc; cbn [fold_left List.filter].
  - cbn. lia.
  - destruct (IH (healthStep acc e)) as (-> & -> & ->).
    destruct (healthStep_icons acc e) as (-> & -> & ->).
    destruct (hasIcon greenCheck e), (hasIcon yellowTriangle e), (hasIcon redCross e);
      cbn [length]; lia.
Qed.

Lemma one_icon_per_row (l : list SophosEndpoint) :
  (length (List.filter (hasIcon greenCheck) l)
   + length (List.filter (hasIcon yellowTriangle) l)
   + length (List.filter (hasIcon redCross) l)
   + length (List.filter (hasIcon grayTriangle) l))%nat = length l.
Proof.
  induction l as [|e l IH]; [reflexivity|]. cbn [List.filter].
  assert (Hicons : ∀ i, hasIcon i e =
                        match getHealthIcon (Health.overall (health e)), i with
                        | greenCheck, greenCheck | yellowTriangle, yellowTriangle
                        | redCross, redCross | grayTriangle, grayTriangle => true
                        | _, _ => false
                        end) by reflexivity.
  rewrite !Hicons.
  destruct (getHealthIcon (Health.overall (health e))); cbn [length]; lia.
Qed.

(** X21. On one list the rows of the table agree with the cards: the
    numbers of green, yellow and red health icons are [healthyEndpoints],
    [warningEndpoints] and [criticalEndpoints], the gray icons are the
    endpoints no health counter counts, and the "Online" badges are as many
    as [onlineEndpoints]. *)
Theorem rows_agree_with_cards (l : list SophosEndpoint) :
  healthyEndpoints (computeStats l)
    = Z.of_nat (length (List.filter (hasIcon greenCheck) l))
  ∧ warningEndpoints (computeStats l)
    = Z.of_nat (length (List.filter (hasIcon yellowTriangle) l))
  ∧ criticalEndpoints (computeStats l)
    = Z.of_nat (length (List.filter (hasIcon redCross) l))
  ∧ totalEndpoints (computeStats l)
      - (healthyEndpoints (computeStats l) + warningEndpoints (computeStats l)
         + criticalEndpoints (computeStats l))
    = Z.of_nat (length (List.filter (hasIcon grayTriangle) l))
  ∧ onlineEndpoints (computeStats l)
    = Z.of_nat (length (List.filter hasOnlineBadge l)).
Proof.
  cbn [computeStats healthyEndpoints warningEndpoints criticalEndpoints
       totalEndpoints onlineEndpoints].
  unfold healthCounts.
  destruct (healthCounts_icons l {| healthy := 0; warning := 0; critical := 0 |})
    as (-> & -> & ->).
  cbn [healthy warning critical].
  pose proof (one_icon_per_row l) as Hsum.
  repeat split; try lia.
  f_equal. f_equal. apply filter_ext_Forall, Forall_forall. intros e _.
  unfold hasOnlineBadge, getStatusBadge. now destruct (truthy (online e)).
Qed.

Lemma listOrEmpty_not_nonEmpty (o : gmap string JsValue) (k : string) :
  nonEmptyArray (field (JObj o) k) = false → listOrEmpty (o !! k) = [].
Proof.
  unfold nonEmptyArray, listOrEmpty, field.
  destruct (o !! k) as [v|]; [|reflexivity]. simpl.
  destruct v as [| | b | q | s | l | o']; try reflexivity.
  destruct l; [reflexivity | discriminate].
Qed.

(** X22. The address cell of a normalized record reads "No IP" exactly
    when none of the six address fields of the raw record holds a non-empty
    list; otherwise it shows the first address in resolution order and,
    when there are more, their number as "+N". *)
Theorem address_cell (o : gmap string JsValue) :
  (ipCell (canonical (JObj o)) = noIp
   ↔ listOrEmpty (o !! "ipAddresses") = [] ∧ listOrEmpty (o !! "ip_addresses") = []
     ∧ listOrEmpty (o !! "ipv4Addresses") = [] ∧ listOrEmpty (o !! "ipv6Addresses") = []
     ∧ listOrEmpty (o !! "ipv4_addresses") = [] ∧ listOrEmpty (o !! "ipv6_addresses") = [])
  ∧ (∀ address more, ipCell (canonical (JObj o)) = firstIp address more →
       ∃ rest, ipAddresses (canonical (JObj o)) = address :: rest
               ∧ more = match rest with
                        | [] => None
                        | _ :: _ => Some (Z.of_nat (length rest))
                        end).
Proof.
  split.
  - assert (Hcell : ipCell (canonical (JObj o)) = noIp
                    ↔ resolveIpAddresses (JObj o) = []).
    { unfold ipCell. cbn [canonical ipAddresses].
      destruct (resolveIpAddresses (JObj o)); split; congruence. }
    rewrite Hcell. unfold resolveIpAddresses.
    destruct (nonEmptyArray (field (JObj o) "ipAddresses")) eqn:E1.
    { apply nonEmptyArray_field in E1 as (x & l & E). unfold field. rewrite E.
      simpl. split; [discriminate | intros [H _]; discriminate H]. }
    destruct (nonEmptyArray (field (JObj o) "ip_addresses")) eqn:E2.
    { apply nonEmptyArray_field in E2 as (x & l & E). unfold field. rewrite E.
      simpl. split; [discriminate | intros (_ & H & _); discriminate H]. }
    cbv zeta. rewrite !arrayOrEmpty_field.
    rewrite (listOrEmpty_not_nonEmpty _ _ E1), (listOrEmpty_not_nonEmpty _ _ E2).
    split.
    + intros H. apply app_eq_nil in H as [H1 H]. apply app_eq_nil in H as [H2 H].
      apply app_eq_nil in H as [H3 H4]. now rewrite H1, H2, H3, H4.
    + intros (_ & _ & -> & -> & -> & ->). reflexivity.
  - intros address more. unfold ipCell.
    destruct (ipAddresses (canonical (JObj o))) as [|a rest]; [discriminate|].
    intros [= <- <-]. exists rest. split; [reflexivity|].
    cbn [length]. destruct rest as [|b rest]; [reflexivity|].
    cbn [length Nat.ltb Nat.leb]. f_equal. lia.
Qed.

Lemma address_cell_witness :
  ∃ rest, ipAddresses (canonical (JObj rawSplitAddresses)) = JStr "10.0.0.1" :: rest
          ∧ Some 1 = match rest with
                     | [] => None
                     | _ :: _ => Some (Z.of_nat (length rest))
                     end.
Proof.
  apply (proj2 (address_cell rawSplitAddresses) (JStr "10.0.0.1") (Some 1)).
  reflexivity.
Defined.

(** ** Items that are not records *)

(** X23. An inventory item that is neither [null] nor an object (a string,
    a number, a boolean, an array) is not rejected: normalization turns it
    into a placeholder endpoint made of the defaults alone, without id. *)
Theorem non_records_become_placeholders (item : JsValue) :
  nullish item = false →
  isObject item = false →
  outcome (normalizeItem item) = Returned placeholderEndpoint.
Proof.
  intros Hn Ho. unfold normalizeItem. rewrite Hn.
  destruct item; try discriminate; reflexivity.
Qed.

Lemma non_records_become_placeholders_witness :
  outcome (normalizeItem (JStr "DESKTOP-ABC123")) = Returned placeholderEndpoint.
Proof.
  apply (non_records_become_placeholders (JStr "DESKTOP-ABC123")); reflexivity.
Defined.

(** ** Successive cycles *)

(** X24. A cycle that runs to its end replaces the view as a whole: when
    [getSophosEndpointData] reported success, every duplicate warning could
    be written and the frequency tables built, the state the cycle leaves
    and the events it emits are the same whatever state it started from;
    nothing of the earlier endpoint list, statistics or error survives. *)
Theorem successful_cycle_forgets_the_past (env : Env) (st1 st2 : DashboardState)
    (r : FetchResult) :
  outcome (getSophosEndpointData env) = Returned r →
  success r = true →
  warningsWritable (data r) = true →
  tablesCountable (data r) = true →
  fetchData env st1 = fetchData env st2.
Proof.
  intros Hr Hs Hww Htc.
  now rewrite (fetchData_complete env st1 r Hr Hs Hww Htc),
              (fetchData_complete env st2 r Hr Hs Hww Htc).
Qed.

Lemma successful_cycle_forgets_the_past_witness :
  fetchData envDuplicates initialState
  = fetchData envDuplicates (snd (fetchData envNoToken initialState)).
Proof.
  apply (successful_cycle_forgets_the_past envDuplicates _ _
           {| success := true; data := map canonical [raw42a; raw42b];
              source := api; error := None |}); reflexivity.
Defined.

(** X26. When a frequency table cannot be built (an OS name, type or group
    name that does not convert to a property key), the cycle has already
    stored the new endpoint list, data source and time of update; it then
    fails, so the statistics stay the ones of the earlier cycle and the
    error is set: the view mixes the new list with the old statistics. *)
Theorem failed_tables_leave_mixed_view (env : Env) (st : DashboardState)
    (r : FetchResult) :
  outcome (getSophosEndpointData env) = Returned r →
  success r = true →
  warningsWritable (data r) = true →
  tablesCountable (data r) = false →
  snd (fetchData env st) =
  {| st_endpoints := keepFirstById (data r);
     st_stats := st_stats st;
     st_loading := false;
     st_error := Some "Failed to fetch endpoint data";
     st_lastUpdated := Some (now env);
     st_dataSource := source r |}.
Proof.
  intros Hr Hs Hww Htc.
  rewrite (proj1 (fetchData_stored env st r Hr Hs Hww)). now rewrite Htc.
Qed.

Lemma failed_tables_leave_mixed_view_witness :
  snd (fetchData envUnprintableOs initialState) =
  {| st_endpoints := [canonical rawUnprintableOs];
     st_stats := None;
     st_loading := false;
     st_error := Some "Failed to fetch endpoint data";
     st_lastUpdated := Some (now envUnprintableOs);
     st_dataSource := api |}.
Proof.
  apply (failed_tables_leave_mixed_view envUnprintableOs initialState
           {| success := true; data := [canonical rawUnprintableOs];
              source := api; error := None |}); reflexivity.
Defined.

(** ** [getSophosConfig] *)

(** X25. [getSophosConfig] never mixes its two sources.  It
    returns the environment's credentials only when client id, client
    secret and tenant id are all set and not empty, with the region
    defaulting to "us01"; if one of them is missing the environment is
    ignored altogether, its region too, and the built-in constants are
    returned.  It returns [null] only when the environment is incomplete
    and [USE_REAL_API] is off. *)
Theorem config_never_mixes_sources (cfg : Config.SophosConfig) (penv : Config.ProcessEnv) :
  (Config.envComplete penv = true →
   ∃ i s t, Config.NEXT_PUBLIC_SOPHOS_CLIENT_ID penv = Some i
     ∧ Config.NEXT_PUBLIC_SOPHOS_CLIENT_SECRET penv = Some s
     ∧ Config.NEXT_PUBLIC_SOPHOS_TENANT_ID penv = Some t
     ∧ outcome (Config.getSophosConfig cfg penv)
       = Returned (Some {| Config.clientId := i; Config.clientSecret := s;
                           Config.tenantId := t;
                           Config.region :=
                             Config.orElse (Config.NEXT_PUBLIC_SOPHOS_REGION penv)
                                           "us01" |}))
  ∧ (Config.envComplete penv = false → Config.USE_REAL_API cfg = true →
     outcome (Config.getSophosConfig cfg penv)
     = Returned (Some {| Config.clientId := Config.CLIENT_ID cfg;
                         Config.clientSecret := Config.CLIENT_SECRET cfg;
                         Config.tenantId := Config.TENANT_ID cfg;
                         Config.region := Config.REGION cfg |}))
  ∧ (outcome (Config.getSophosConfig cfg penv) = Returned None
     ↔ Config.envComplete penv = false ∧ Config.USE_REAL_API cfg = false).
Proof.
  unfold Config.getSophosConfig.
  destruct (Config.envComplete penv) eqn:Hc.
  - split; [|split].
    + intros _. unfold Config.envComplete, Config.isSet in Hc.
      destruct (Config.NEXT_PUBLIC_SOPHOS_CLIENT_ID penv) as [i|]; [|discriminate Hc].
      destruct (Config.NEXT_PUBLIC_SOPHOS_CLIENT_SECRET penv) as [s|];
        [|rewrite andb_false_r in Hc; discriminate Hc].
      destruct (Config.NEXT_PUBLIC_SOPHOS_TENANT_ID penv) as [t|];
        [|rewrite andb_false_r in Hc; discriminate Hc].
      exists i, s, t. repeat split.
    + discriminate.
    + split; [discriminate | intros [H _]; discriminate H].
  - split; [discriminate|]. split.
    + intros _ ->. reflexivity.
    + destruct (Config.USE_REAL_API cfg); split; try discriminate; try tauto.
      intros [_ H]. discriminate H.
Qed.

Lemma config_never_mixes_sources_witness :
  outcome (Config.getSophosConfig Config.sampleConfig Config.partialEnv)
  = Returned (Some {| Config.clientId := "built-in-client";
                      Config.clientSecret := "built-in-secret";
                      Config.tenantId := "built-in-tenant";
                      Config.region := "us01" |}).
Proof.
  apply (proj1 (proj2 (config_never_mixes_sources Config.sampleConfig Config.partialEnv)));
    reflexivity.
Defined.
